(** * SmolSQLAgents: scoring, validation and caching core

    A shallow embedding of the deterministic parts of the repository:
    - [src/validation/tsql_validator.py]   (class [TSQLValidator])
    - [src/validation/query_optimizer.py]  (class [QueryOptimizer])
    - [src/agents/base.py]                 (mixins [CachingMixin], [ValidationMixin])
    - [src/agents/nl2sql.py]               (class [NL2SQLAgent])
    - [src/agents/business.py]             (class [BusinessContextAgent])
    - [src/agents/concepts/loader.py], [matcher.py]
    - [src/agents/entity_recognition.py]   (class [EntityRecognitionAgent])

    Python [str] values are modelled as [string] (sequences of 8-bit
    characters) with the ASCII case mapping; Python [float] values are
    modelled as exact rationals [Q]; a Python [dict] is an association list
    in insertion order with unique keys; a Python [set] is a duplicate-free
    list.  Collaborators that live outside the repository ([sqlparse], the
    embedding client, the vector search, [hashlib], the database) are
    parameters of the functions that call them. *)

From Stdlib Require Import Bool Arith ZArith QArith Qround Qminmax Lia List.
From Stdlib Require Import Sorted Lqa.
From Stdlib Require Import Ascii String DecimalString.
Import ListNotations.

Set Implicit Arguments.
Set Warnings "-register-all".

(* ================================================================== *)
(** * Part I: definitions                                              *)
(* ================================================================== *)

(** ** Python string primitives *)

Module PyStr.
Local Open Scope string_scope.

Definition is_lower_ascii (c : ascii) : bool :=
  let n := nat_of_ascii c in (97 <=? n)%nat && (n <=? 122)%nat.

Definition is_upper_ascii (c : ascii) : bool :=
  let n := nat_of_ascii c in (65 <=? n)%nat && (n <=? 90)%nat.

Definition to_upper (c : ascii) : ascii :=
  if is_lower_ascii c then ascii_of_nat (nat_of_ascii c - 32) else c.

Definition to_lower (c : ascii) : ascii :=
  if is_upper_ascii c then ascii_of_nat (nat_of_ascii c + 32) else c.

(** [str.isspace] on one ASCII character: TAB, LF, VT, FF, CR, the four
    separators 0x1c-0x1f and the blank. *)
Definition is_space (c : ascii) : bool :=
  let n := nat_of_ascii c in
  ((9 <=? n)%nat && (n <=? 13)%nat) || ((28 <=? n)%nat && (n <=? 32)%nat).

Fixpoint smap (f : ascii -> ascii) (s : string) : string :=
  match s with
  | EmptyString => EmptyString
  | String c s' => String (f c) (smap f s')
  end.

(** [s.upper()] and [s.lower()] *)
Definition upper (s : string) : string := smap to_upper s.
Definition lower (s : string) : string := smap to_lower s.

(** [s.startswith(p)] *)
Definition startswith (p s : string) : bool := String.prefix p s.

(** [sub in s] *)
Fixpoint contains (sub s : string) : bool :=
  if String.prefix sub s then true
  else match s with
       | EmptyString => false
       | String _ s' => contains sub s'
       end.

(** [s.endswith(suf)] *)
Fixpoint endswith (suf s : string) : bool :=
  if String.eqb s suf then true
  else match s with
       | EmptyString => false
       | String _ s' => endswith suf s'
       end.

(** [s.count(sub)]: the number of non-overlapping occurrences, scanning
    from the left.  [skip] is the number of characters still covered by
    the occurrence found last. *)
Fixpoint count_from (sub s : string) (skip : nat) : nat :=
  match s with
  | EmptyString =>
      match skip, sub with
      | O, EmptyString => 1
      | _, _ => 0
      end
  | String _ s' =>
      match skip with
      | S k => count_from sub s' k
      | O => if String.prefix sub s
             then S (count_from sub s' (String.length sub - 1))
             else count_from sub s' 0
      end
  end.

Definition count (sub s : string) : nat := count_from sub s 0.

(** [s.split(sep)] for a non-empty separator: [cur] is the piece being
    read, [skip] the characters of the separator still to be dropped. *)
Fixpoint split_from (sep s cur : string) (skip : nat) : list string :=
  match s with
  | EmptyString => [cur]
  | String c s' =>
      match skip with
      | S k => split_from sep s' cur k
      | O => if String.prefix sep s
             then cur :: split_from sep s' EmptyString (String.length sep - 1)
             else split_from sep s' (cur ++ String c EmptyString) 0
      end
  end.

Definition split (sep s : string) : list string :=
  split_from sep s EmptyString 0.

(** [s.split()]: the maximal runs of non-blank characters. *)
Fixpoint split_ws_from (s cur : string) : list string :=
  match s with
  | EmptyString => if String.eqb cur EmptyString then [] else [cur]
  | String c s' =>
      if is_space c
      then (if String.eqb cur EmptyString then split_ws_from s' EmptyString
            else cur :: split_ws_from s' EmptyString)
      else split_ws_from s' (cur ++ String c EmptyString)
  end.

Definition split_ws (s : string) : list string :=
  split_ws_from s EmptyString.

Fixpoint lstrip (s : string) : string :=
  match s with
  | EmptyString => EmptyString
  | String c s' => if is_space c then lstrip s' else s
  end.

Fixpoint rstrip (s : string) : string :=
  match s with
  | EmptyString => EmptyString
  | String c s' =>
      let r := rstrip s' in
      if is_space c && String.eqb r EmptyString then EmptyString
      else String c r
  end.

(** [s.strip()] *)
Definition strip (s : string) : string := rstrip (lstrip s).

(** membership of a string in a list of strings *)
Definition mem (x : string) (l : list string) : bool :=
  existsb (String.eqb x) l.

(** [set(l)] as a duplicate-free list, in order of first occurrence *)
Fixpoint dedup (l : list string) : list string :=
  match l with
  | [] => []
  | x :: l' => if mem x l' then dedup l' else x :: dedup l'
  end.

(** adding one element to a set *)
Definition set_add (x : string) (s : list string) : list string :=
  if mem x s then s else s ++ [x].
End PyStr.

(** ** Python values

    The functions of [nl2sql.py] inspect the dynamic type of what the
    validators return ([isinstance(result, bool)], [isinstance(result,
    dict)]), so their arguments are values of a small universe of Python
    objects. *)

Module Py.
Inductive pyval : Type :=
| PyNone : pyval
| PyBool : bool -> pyval
| PyInt : Z -> pyval
| PyStr : string -> pyval
| PyList : list pyval -> pyval
| PyDict : list (string * pyval) -> pyval.

(** [bool(v)] *)
Definition truthy (v : pyval) : bool :=
  match v with
  | PyNone => false
  | PyBool b => b
  | PyInt z => negb (Z.eqb z 0)
  | PyStr s => negb (String.eqb s EmptyString)
  | PyList l => match l with [] => false | _ => true end
  | PyDict d => match d with [] => false | _ => true end
  end.

(** [d.get(k)] on the entries of a dict *)
Fixpoint lookup (A : Type) (k : string) (d : list (string * A)) : option A :=
  match d with
  | [] => None
  | (k', v) :: d' => if String.eqb k k' then Some v else lookup k d'
  end.

(** [d.get(k, default)] *)
Definition get (A : Type) (k : string) (default : A)
           (d : list (string * A)) : A :=
  match lookup k d with
  | Some v => v
  | None => default
  end.

(** [d[k] = v]: an existing key keeps its position, a new key goes last *)
Fixpoint set (A : Type) (k : string) (v : A) (d : list (string * A))
  : list (string * A) :=
  match d with
  | [] => [(k, v)]
  | (k', v') :: d' =>
      if String.eqb k k' then (k', v) :: d' else (k', v') :: set k v d'
  end.

(** [del d[k]] *)
Fixpoint del (A : Type) (k : string) (d : list (string * A))
  : list (string * A) :=
  match d with
  | [] => []
  | (k', v') :: d' =>
      if String.eqb k k' then d' else (k', v') :: del k d'
  end.

(** [list(d.keys())] *)
Definition keys (A : Type) (d : list (string * A)) : list string :=
  map fst d.

(** [all(l)] *)
Definition all (l : list pyval) : bool := forallb truthy l.

Definition str_list (l : list string) : pyval := PyList (map PyStr l).
End Py.

(** ** [validation/tsql_validator.py]: class [TSQLValidator] *)

Module TSQLValidator.
Import PyStr.
Local Open Scope string_scope.

(** [self.forbidden_keywords] *)
Definition forbidden_keywords : list string :=
  ["DROP"; "DELETE"; "UPDATE"; "INSERT"; "TRUNCATE"; "ALTER"].

(** The dict built by [validate_syntax] and [_validate_statement]. *)
Record syntax_result : Type := mk_syntax_result {
  syn_valid : bool;
  syn_errors : list string;
  syn_warnings : list string
}.

(** The dict built by [validate_security]. *)
Record security_result : Type := mk_security_result {
  sec_valid : bool;
  sec_risks : list string;
  sec_forbidden_operations : list string
}.

(** One entry of the list built by [check_performance_patterns]. *)
Record issue : Type := mk_issue {
  issue_type : string;
  issue_severity : string;
  issue_message : string
}.

(** [_validate_statement], on the text [str(statement)] of a parsed
    statement. *)
Definition _validate_statement (statement : string) : syntax_result :=
  let statement_text := strip statement in
  if String.eqb statement_text ""
  then mk_syntax_result false ["Empty statement"] []
  else
    let missing_keywords :=
      negb (existsb (fun keyword => contains keyword (upper statement_text))
                    ["SELECT"; "FROM"]) in
    let unbalanced :=
      negb (Nat.eqb (count "(" statement_text) (count ")" statement_text)) in
    mk_syntax_result
      (negb missing_keywords && negb unbalanced)
      ((if missing_keywords
        then ["Missing required SELECT and FROM clauses"] else [])
       ++ (if unbalanced then ["Unbalanced parentheses"] else []))
      (if endswith ";" statement_text
       then ["Semicolon at end of statement"] else []).

(** The loop of [validate_syntax] over the parsed statements. *)
Fixpoint validate_statements (statements : list string)
         (acc : syntax_result) : syntax_result :=
  match statements with
  | [] => acc
  | statement :: rest =>
      let sv := _validate_statement statement in
      let acc1 :=
        if negb (syn_valid sv)
        then mk_syntax_result false (syn_errors acc ++ syn_errors sv)
                              (syn_warnings acc)
        else acc in
      let acc2 :=
        match syn_warnings sv with
        | [] => acc1
        | ws => mk_syntax_result (syn_valid acc1) (syn_errors acc1)
                                 (syn_warnings acc1 ++ ws)
        end in
      validate_statements rest acc2
  end.

Section WithParser.
(** [sqlparse.parse]: either an exception, with its message, or the
    statements of the query, each by its text. *)
Variable sqlparse_parse : string -> string + list string.

Definition validate_syntax (query : string) : syntax_result :=
  match sqlparse_parse query with
  | inl e => mk_syntax_result false ["Syntax parsing error: " ++ e] []
  | inr [] => mk_syntax_result false ["Empty query"] []
  | inr parsed_statements =>
      validate_statements parsed_statements (mk_syntax_result true [] [])
  end.
End WithParser.

(** [_check_select_star_usage] *)
Definition _check_select_star_usage (query_lower : string) : bool :=
  if contains "select *" query_lower
  then existsb (fun part => startswith "*" (strip part))
               (tl (split "select" query_lower))
  else false.

(** [check_performance_patterns] *)
Definition check_performance_patterns (query : string) : list issue :=
  let query_lower := lower query in
  (if _check_select_star_usage query_lower
   then [mk_issue "performance" "warning"
           "SELECT * usage detected - consider specifying only needed columns"]
   else [])
  ++ (if contains "from" query_lower && negb (contains "where" query_lower)
      then [mk_issue "performance" "warning"
              "No WHERE clause detected - consider adding filters for large tables"]
      else [])
  ++ (if (3 <? count "select" query_lower)%nat
      then [mk_issue "performance" "info"
              "Multiple SELECT statements detected - consider using JOINs or subqueries"]
      else [])
  ++ (if contains "join" query_lower && negb (contains "index" query_lower)
      then [mk_issue "performance" "info"
              "JOIN detected without index hints - verify proper indexing"]
      else []).

(** The second and fourth loops of [validate_security] test their lower-case
    patterns against [query_upper], as the source does. *)
Definition injection_patterns : list string :=
  ["exec("; "execute("; "sp_"; "xp_"; "openrowset"; "opendatasource"].

Definition system_tables : list string :=
  ["sys."; "information_schema."; "master."; "tempdb."].

Definition validate_security (query : string) : security_result :=
  let query_upper := upper query in
  let found := filter (fun keyword => contains keyword query_upper)
                      forbidden_keywords in
  let valid := match found with [] => true | _ => false end in
  let risks1 :=
    map (fun pattern => "Potential SQL injection risk: " ++ pattern)
        (filter (fun pattern => contains pattern query_upper)
                injection_patterns) in
  let risks2 :=
    if contains "exec" query_upper || contains "execute" query_upper
    then ["Dynamic SQL execution detected"] else [] in
  let risks3 :=
    map (fun table => "System table access: " ++ table)
        (filter (fun table => contains table query_upper) system_tables) in
  mk_security_result valid (risks1 ++ risks2 ++ risks3) found.

(** The dicts as Python values. *)
Definition syntax_to_py (r : syntax_result) : Py.pyval :=
  Py.PyDict [("valid", Py.PyBool (syn_valid r));
             ("errors", Py.str_list (syn_errors r));
             ("warnings", Py.str_list (syn_warnings r))].

Definition security_to_py (r : security_result) : Py.pyval :=
  Py.PyDict [("valid", Py.PyBool (sec_valid r));
             ("risks", Py.str_list (sec_risks r));
             ("forbidden_operations",
              Py.str_list (sec_forbidden_operations r))].

Definition issue_to_py (i : issue) : Py.pyval :=
  Py.PyDict [("type", Py.PyStr (issue_type i));
             ("severity", Py.PyStr (issue_severity i));
             ("message", Py.PyStr (issue_message i))].

Definition issues_to_py (l : list issue) : Py.pyval :=
  Py.PyList (map issue_to_py l).
End TSQLValidator.


(** ** [validation/query_optimizer.py]: class [QueryOptimizer] *)

Module QueryOptimizer.
Import PyStr.
Local Open Scope string_scope.
Local Open Scope Z_scope.

(** [_calculate_complexity_score]: the running [score += ...] of the
    source, one line per statement. *)
Definition _calculate_complexity_score (query : string) : Z :=
  let score := 0 in
  let query_lower := lower query in
  let score := score + Z.of_nat (count "join" query_lower) * 5 in
  let score := score + Z.of_nat (count "select" query_lower) * 2 in
  let score := score + Z.of_nat (count "where" query_lower) * 3 in
  let score := score + Z.of_nat (count "group by" query_lower) * 4 in
  let score := score + Z.of_nat (count "order by" query_lower) * 3 in
  let score := score + Z.of_nat (count "having" query_lower) * 4 in
  let score := score + Z.of_nat (count "union" query_lower) * 6 in
  let score := score + Z.of_nat (count "subquery" query_lower) * 5 in
  let score :=
    score + (Z.of_nat (count "(" query) - Z.of_nat (count ")" query)) * 2 in
  score.

(** The score as the specification words it, with the absolute value of
    the parenthesis imbalance. *)
Definition spec_complexity_score (query : string) : Z :=
  let query_lower := lower query in
  5 * Z.of_nat (count "join" query_lower)
  + 2 * Z.of_nat (count "select" query_lower)
  + 3 * Z.of_nat (count "where" query_lower)
  + 4 * Z.of_nat (count "group by" query_lower)
  + 3 * Z.of_nat (count "order by" query_lower)
  + 4 * Z.of_nat (count "having" query_lower)
  + 6 * Z.of_nat (count "union" query_lower)
  + 5 * Z.of_nat (count "subquery" query_lower)
  + 2 * Z.abs (Z.of_nat (count "(" query) - Z.of_nat (count ")" query)).
End QueryOptimizer.

(** ** [agents/base.py]: [CachingMixin] and [ValidationMixin] *)

Module BoundedCache.
(** The body shared by [CachingMixin._cache_result] (limit
    [self._cache_size]) and [EntityRecognitionAgent._cache_result] (limit
    100): store the result, and when the dict has grown past the limit
    delete its first ten keys, in the order [list(d.keys())] gives them. *)
Definition cache_result (V : Type) (limit : Z) (cache : list (string * V))
           (cache_key : string) (result : V) : list (string * V) :=
  let cache := Py.set cache_key result cache in
  if (limit <? Z.of_nat (List.length cache))%Z
  then
    let oldest_keys := firstn 10 (Py.keys cache) in
    fold_left (fun c key => Py.del key c) oldest_keys cache
  else cache.

(** A cache is a dict: its keys are pairwise distinct. *)
Definition wf (V : Type) (cache : list (string * V)) : Prop :=
  NoDup (Py.keys cache).

(** The cache after a sequence of insertions, oldest first. *)
Definition run (V : Type) (limit : Z) (cache : list (string * V))
           (inserts : list (string * V)) : list (string * V) :=
  fold_left (fun c kv => cache_result limit c (fst kv) (snd kv))
            inserts cache.
End BoundedCache.

Module CachingMixin.
Import PyStr.

Record t (V : Type) : Type := mk {
  _cache : list (string * V);
  _cache_size : Z
}.

(** [__init__(cache_size=50)] *)
Definition init (V : Type) (cache_size : Z) : t V := mk [] cache_size.

Section WithDigest.
(** [hashlib.md5(b).hexdigest()] *)
Variable md5_hexdigest : string -> string.

Definition _get_cache_key (key_string : string) : string :=
  md5_hexdigest (strip (lower key_string)).
End WithDigest.

Definition _get_cached_result (V : Type) (self : t V) (cache_key : string)
  : option V :=
  Py.lookup cache_key (_cache self).

Definition _cache_result (V : Type) (self : t V) (cache_key : string)
           (result : V) : t V :=
  mk (BoundedCache.cache_result (_cache_size self) (_cache self)
                                cache_key result)
     (_cache_size self).

Definition clear_cache (V : Type) (self : t V) : t V :=
  mk [] (_cache_size self).
End CachingMixin.

Module ValidationMixin.
(** [self.validators]: name to validator; a validator of this repository
    catches its own exceptions, so a call always returns a value. *)
Definition validators : Type := list (string * (string -> Py.pyval)).

Definition add_validator (self : validators) (name : string)
           (validator : string -> Py.pyval) : validators :=
  Py.set name validator self.

Definition validate (self : validators) (data : string)
           (validator_name : string) : Py.pyval :=
  match Py.lookup validator_name self with
  | None => Py.PyBool true
  | Some validator => validator data
  end.
End ValidationMixin.

(** ** [agents/nl2sql.py]: class [NL2SQLAgent] *)

Module NL2SQLAgent.
Import Py PyStr.
Local Open Scope string_scope.

(** The dict [results] of [_execute_parallel_validation], one entry per
    submitted task, in the order of the [futures] literal. *)
Record results : Type := mk_results {
  r_syntax : pyval;
  r_business : pyval;
  r_security : pyval;
  r_performance : pyval;
  r_execution : pyval
}.

Definition results_entries (r : results) : list (string * pyval) :=
  [("syntax", r_syntax r); ("business", r_business r);
   ("security", r_security r); ("performance", r_performance r);
   ("execution", r_execution r)].

(** The agent's mutable state is the cache of [CachingMixin]; a cached
    value is a dict, kept by its entries. *)
Definition t : Type := CachingMixin.t (list (string * pyval)).

(** [CachingMixin.__init__(self, cache_size=50)] *)
Definition init : t := CachingMixin.init _ 50.

(** The inner function [get_validation_result] of
    [_format_validation_response]. *)
Definition get_validation_result (result : pyval) (key : string)
           (default : pyval) : pyval :=
  match result with
  | PyBool b => PyBool b
  | PyDict d => get key default d
  | _ => default
  end.

(** The [validation] dict of [_format_validation_response]. *)
Definition validation_block (r : results) : list (string * pyval) :=
  [("syntax_valid", get_validation_result (r_syntax r) "valid" (PyBool false));
   ("business_compliant",
    get_validation_result (r_business r) "valid" (PyBool false));
   ("security_valid",
    get_validation_result (r_security r) "valid" (PyBool false));
   ("performance_issues",
    match r_performance r with
    | PyDict d => get "issues" (PyList []) d
    | _ => PyList []
    end)].

Definition _format_validation_response (sql : string) (r : results)
  : list (string * pyval) :=
  let validation := validation_block r in
  [("success", PyBool true);
   ("generated_sql", PyStr sql);
   ("validation", PyDict validation);
   ("query_execution", r_execution r);
   ("is_valid",
    PyBool (all [get "syntax_valid" PyNone validation;
                 get "business_compliant" PyNone validation;
                 get "security_valid" PyNone validation]))].

Definition _format_response_with_cache (sql : string)
           (cached_results : list (string * pyval)) : list (string * pyval) :=
  [("success", PyBool true);
   ("generated_sql", PyStr sql);
   ("validation", PyDict cached_results);
   ("cached", PyBool true);
   ("is_valid", get "syntax_valid" (PyBool false) cached_results)].

Definition error_response (error : string) : list (string * pyval) :=
  [("success", PyBool false);
   ("error", PyStr error);
   ("generated_sql", PyStr "");
   ("is_valid", PyBool false)].

(** [response[k]] and [response["validation"][k]], [None] for a missing
    key. *)
Definition field (k : string) (response : list (string * pyval)) : pyval :=
  get k PyNone response.

Definition validation_field (k : string) (response : list (string * pyval))
  : pyval :=
  match field "validation" response with
  | PyDict validation => get k PyNone validation
  | _ => PyNone
  end.

Section WithCollaborators.
(** [sqlparse.parse], as in [TSQLValidator]. *)
Variable sqlparse_parse : string -> string + list string.
(** [BusinessValidator.validate_against_concepts]: it walks the token tree
    of [sqlparse]; an exception with its message, or the dict it returns. *)
Variable validate_against_concepts : string -> pyval -> string + pyval.
(** [_execute_query_impl], which runs the query on the database. *)
Variable _execute_query_impl : string -> Z -> pyval.
(** [hashlib.md5(b).hexdigest()] *)
Variable md5_hexdigest : string -> string.
(** [str(hash(str(business_context)))] *)
Variable context_hash : pyval -> string.

(** [_setup_agent_components] *)
Definition validators : ValidationMixin.validators :=
  let v := [] in
  let v := ValidationMixin.add_validator v "syntax"
             (fun q => TSQLValidator.syntax_to_py
                         (TSQLValidator.validate_syntax sqlparse_parse q)) in
  let v := ValidationMixin.add_validator v "security"
             (fun q => TSQLValidator.security_to_py
                         (TSQLValidator.validate_security q)) in
  let v := ValidationMixin.add_validator v "performance"
             (fun q => TSQLValidator.issues_to_py
                         (TSQLValidator.check_performance_patterns q)) in
  v.

Definition validate : string -> string -> pyval :=
  ValidationMixin.validate validators.

Definition _check_business_compliance (query : string)
           (business_context : list (string * pyval)) : pyval :=
  let matched_concepts := get "matched_concepts" (PyList []) business_context in
  match validate_against_concepts query matched_concepts with
  | inr v => v
  | inl e => PyDict [("success", PyBool false); ("error", PyStr e)]
  end.

Definition cache_key_of (sql : string)
           (business_context : list (string * pyval)) : string :=
  CachingMixin._get_cache_key md5_hexdigest
    (sql ++ ":" ++ context_hash (PyDict business_context)).

(** The five tasks submitted to the pool are independent of one another
    and of the cache; their results are collected in the order of the
    [futures] literal. *)
Definition run_validators (sql : string)
           (business_context : list (string * pyval)) : results :=
  mk_results (validate sql "syntax")
             (_check_business_compliance sql business_context)
             (validate sql "security")
             (validate sql "performance")
             (_execute_query_impl sql 100).

Definition _execute_parallel_validation (self : t) (sql : string)
           (business_context : list (string * pyval))
  : list (string * pyval) * t :=
  let results := run_validators sql business_context in
  let cache_key := cache_key_of sql business_context in
  let self := CachingMixin._cache_result self cache_key
                                         (results_entries results) in
  (_format_validation_response sql results, self).

(** [generate_sql_optimized], from the SQL text extracted from the
    language model's answer on ([generated_sql], [None] when nothing could
    be extracted). *)
Definition generate_sql_optimized (self : t) (generated_sql : option string)
           (business_context entity_context : pyval)
  : list (string * pyval) * t :=
  match business_context, entity_context with
  | PyDict bc, PyDict _ =>
      match generated_sql with
      | None => (error_response "'NoneType' object is not subscriptable", self)
      | Some sql =>
          if String.eqb sql ""
          then (error_response "No valid SQL generated", self)
          else
            let cache_key := cache_key_of sql bc in
            match CachingMixin._get_cached_result self cache_key with
            | Some ((_ :: _) as cached_validation) =>
                (_format_response_with_cache sql cached_validation, self)
            | _ => _execute_parallel_validation self sql bc
            end
      end
  | _, _ =>
      (error_response
         "Business context and entity context must be dictionaries", self)
  end.

(** SQL validation, as the pipeline runs it on an extracted query. *)
Definition validate_sql (self : t) (sql : string)
           (business_context : list (string * pyval))
  : list (string * pyval) * t :=
  generate_sql_optimized self (Some sql) (PyDict business_context) (PyDict []).
End WithCollaborators.
End NL2SQLAgent.

(** ** Python lists and numbers *)

Module PySeq.
(** [l[:n]] for a Python integer [n]: a negative bound counts from the
    end. *)
Definition slice_to (A : Type) (n : Z) (l : list A) : list A :=
  if (0 <=? n)%Z then firstn (Z.to_nat n) l
  else firstn (List.length l - Z.to_nat (- n)) l.

Section Sort.
Variable A : Type.
Variable key : A -> Q.

(** [x] is put in front of the first element whose key is not above its
    own, so that elements with equal keys keep their order. *)
Fixpoint insert_desc (x : A) (l : list A) : list A :=
  match l with
  | [] => [x]
  | y :: l' =>
      if Qle_bool (key y) (key x) then x :: y :: l'
      else y :: insert_desc x l'
  end.

(** [l.sort(key=key, reverse=True)]: the stable sort by decreasing key. *)
Definition sort_desc (l : list A) : list A :=
  fold_right insert_desc [] l.
End Sort.

(** [sum(l)] *)
Definition sum (l : list Q) : Q := fold_left Qplus l 0%Q.

(** [enumerate(l)], counting from [i] *)
Fixpoint enumerate_from (A : Type) (i : nat) (l : list A) : list (nat * A) :=
  match l with
  | [] => []
  | x :: l' => (i, x) :: enumerate_from (S i) l'
  end.
End PySeq.

Module PyFloat.
Local Open Scope Q_scope.

(** Rounding to the nearest integer, ties to the even one. *)
Definition round_half_even (x : Q) : Z :=
  let f := Qfloor x in
  match Qcompare (x - inject_Z f) (1 # 2) with
  | Lt => f
  | Gt => (f + 1)%Z
  | Eq => if Z.even f then f else (f + 1)%Z
  end.

(** [round(x, 3)] *)
Definition round3 (x : Q) : Q :=
  inject_Z (round_half_even (x * 1000)) / 1000.
End PyFloat.

(** ** [agents/entity_recognition.py]: class [EntityRecognitionAgent] *)

Module EntityRecognitionAgent.
Import PyStr PySeq PyFloat.
Local Open Scope string_scope.
Local Open Scope Q_scope.

(** [x > y] on floats *)
Definition Qgt_bool (x y : Q) : bool := negb (Qle_bool x y).

(** One entry of [search_results["tables"]]; a missing key is [None]. *)
Record table_content : Type := mk_content {
  content_name : option string;
  content_business_purpose : option string
}.

Record table_result : Type := mk_table_result {
  result_content : option table_content;
  result_score : option Q
}.

Record relevance_factors : Type := mk_factors {
  semantic_similarity : Q;
  business_purpose_match : Q;
  table_name_relevance : Q
}.

(** One entry of [applicable_entities]; the entries of the direct analysis
    carry no [relevance_factors]. *)
Record entity : Type := mk_entity {
  table_name : string;
  business_purpose : string;
  relevance_score : Q;
  factors : option relevance_factors;
  recommendation : string
}.

Record recommendation_entry : Type := mk_recommendation {
  rec_priority : nat;
  rec_table_name : string;
  rec_relevance_score : Q;
  rec_business_purpose : string;
  rec_recommendation : string
}.

Record result : Type := mk_result {
  success : bool;
  error : option string;
  applicable_entities : list entity;
  recommendations : list recommendation_entry;
  analysis : string;
  confidence : Q
}.

(** The two caches of the agent. *)
Record t : Type := mk {
  _embedding_cache : list (string * Q);
  _result_cache : list (string * result)
}.

Definition init : t := mk [] [].

Definition _empty_entity_result (error_msg : string) : result :=
  mk_result false (Some error_msg) [] [] "" 0.

Definition _calculate_purpose_match (business_purpose user_intent : string)
  : Q :=
  if String.eqb business_purpose "" || String.eqb user_intent "" then 0
  else
    let purpose_words := dedup (split_ws (lower business_purpose)) in
    let intent_words := dedup (split_ws (lower user_intent)) in
    match purpose_words, intent_words with
    | [], _ => 0
    | _, [] => 0
    | _, _ =>
        let common_words :=
          filter (fun w => mem w intent_words) purpose_words in
        inject_Z (Z.of_nat (List.length common_words))
        / inject_Z (Z.of_nat (Nat.max (List.length intent_words) 1))
    end.

Definition _calculate_name_relevance (table_name user_intent : string) : Q :=
  if String.eqb table_name "" || String.eqb user_intent "" then 0
  else
    let table_name_lower := lower table_name in
    let intent_lower := lower user_intent in
    if contains table_name_lower intent_lower then 1
    else if existsb (fun word => contains word table_name_lower
                                 || contains table_name_lower word)
                    (split_ws intent_lower)
         then 0.7
         else 0.

Definition _calculate_purpose_match_cached (cache : list (string * Q))
           (business_purpose user_intent : string) : Q * list (string * Q) :=
  let cache_key := "purpose:" ++ business_purpose ++ ":" ++ user_intent in
  match Py.lookup cache_key cache with
  | Some v => (v, cache)
  | None =>
      let result := _calculate_purpose_match business_purpose user_intent in
      (result, Py.set cache_key result cache)
  end.

Definition _calculate_name_relevance_cached (cache : list (string * Q))
           (table_name user_intent : string) : Q * list (string * Q) :=
  let cache_key := "name:" ++ table_name ++ ":" ++ user_intent in
  match Py.lookup cache_key cache with
  | Some v => (v, cache)
  | None =>
      let result := _calculate_name_relevance table_name user_intent in
      (result, Py.set cache_key result cache)
  end.

Definition _get_relevance_recommendation (relevance_score : Q) : string :=
  if Qle_bool 0.8 relevance_score then "Highly relevant - strongly recommended"
  else if Qle_bool 0.6 relevance_score then "Relevant - good match"
  else if Qle_bool 0.4 relevance_score then "Moderately relevant"
  else if Qle_bool 0.2 relevance_score then "Low relevance"
  else "Not relevant".

Definition str_of_nat (n : nat) : string :=
  DecimalString.NilEmpty.string_of_uint (Nat.to_uint n).

(** [overall_relevance] of the ranking loop *)
Definition overall_relevance (f : relevance_factors) : Q :=
  semantic_similarity f * 0.5
  + business_purpose_match f * 0.3
  + table_name_relevance f * 0.2.

(** The body of the loop [for table_result in tables[:max_entities * 2]];
    the state is [entity_analysis] and the embedding cache. *)
Definition analyze_table (intent : string)
           (st : list entity * list (string * Q)) (table_result : table_result)
  : list entity * list (string * Q) :=
  let (entity_analysis, cache) := st in
  let table_name :=
    match result_content table_result with
    | Some c => match content_name c with Some n => n | None => "unknown" end
    | None => "unknown"
    end in
  let business_purpose :=
    match result_content table_result with
    | Some c => match content_business_purpose c with
                | Some p => p | None => "" end
    | None => ""
    end in
  let similarity_score :=
    match result_score table_result with Some s => s | None => 0 end in
  let (purpose, cache) :=
    _calculate_purpose_match_cached cache business_purpose intent in
  let (name, cache) :=
    _calculate_name_relevance_cached cache table_name intent in
  let relevance_factors := mk_factors similarity_score purpose name in
  let overall := overall_relevance relevance_factors in
  ((entity_analysis
      ++ [mk_entity table_name business_purpose (round3 overall)
                    (Some relevance_factors)
                    (_get_relevance_recommendation overall)])%list,
   cache).

(** "Sort and filter" *)
Definition select_applicable (max_entities : Z) (entity_analysis : list entity)
  : list entity :=
  slice_to max_entities
    (filter (fun e => Qgt_bool (relevance_score e) 0.3)
            (sort_desc relevance_score entity_analysis)).

Definition make_recommendations (applicable_entities : list entity)
  : list recommendation_entry :=
  map (fun ie => mk_recommendation (fst ie + 1) (table_name (snd ie))
                   (relevance_score (snd ie)) (business_purpose (snd ie))
                   (recommendation (snd ie)))
      (enumerate_from 0 applicable_entities).

(** "Calculate confidence", before the final [round(confidence, 3)] *)
Definition raw_confidence (applicable_entities : list entity) : Q :=
  match applicable_entities with
  | [] => 0
  | _ =>
      let avg_relevance :=
        sum (map relevance_score applicable_entities)
        / inject_Z (Z.of_nat (List.length applicable_entities)) in
      Qmin (avg_relevance * 1.2) 1
  end.

(** [table_patterns] of [_analyze_entities_direct] *)
Definition table_patterns : list (string * list string) :=
  [("customer", ["customers"; "customer"; "client"]);
   ("account", ["accounts"; "account"; "banking"]);
   ("transaction", ["transactions"; "transaction"; "payment"]);
   ("employee", ["employees"; "employee"; "staff"]);
   ("branch", ["branches"; "branch"; "location"]);
   ("loan", ["loans"; "loan"; "credit"]);
   ("card", ["cards"; "card"; "credit_card"])].

Record direct_analysis : Type := mk_direct {
  direct_entities : list entity;
  direct_confidence : Q;
  direct_analysis_text : string
}.

Section WithCollaborators.
(** [hashlib.md5(b).hexdigest()] *)
Variable md5_hexdigest : string -> string.
(** [self.indexer_agent.search_documentation(query=..., doc_type="table")]:
    an exception with its message, or the list under ["tables"]. *)
Variable search_documentation : string -> string + list table_result.
(** The successive values of [random.uniform(-0.1, 0.1)]. *)
Variable random_uniform : nat -> Q.
(** [f"{x:.2f}"] *)
Variable format_2f : Q -> string.

Definition _generate_analysis_summary (applicable_entities : list entity)
           (user_intent : string) : string :=
  match applicable_entities with
  | [] => "No highly relevant entities found for: '" ++ user_intent ++ "'"
  | top :: _ =>
      let entity_count := List.length applicable_entities in
      let avg_score :=
        sum (map relevance_score applicable_entities)
        / inject_Z (Z.of_nat entity_count) in
      "Found " ++ str_of_nat entity_count ++ " applicable entities for '"
      ++ user_intent ++ "'. Top match: '" ++ table_name top
      ++ "' with average relevance: " ++ format_2f avg_score
  end.

(** The inner loop of [_analyze_entities_direct]; the state is the list of
    entities, [total_score] and the number of random draws made. *)
Definition direct_table (pattern query_lower intent_lower : string)
           (st : list entity * Q * nat) (table : string)
  : list entity * Q * nat :=
  let '(entities, total_score, draws) := st in
  let relevance := 0 in
  let relevance :=
    if contains pattern query_lower then relevance + 0.4 else relevance in
  let relevance :=
    if contains pattern intent_lower then relevance + 0.2 else relevance in
  let relevance := relevance + random_uniform draws in
  let relevance := Qmin relevance 0.8 in
  if Qgt_bool relevance 0.3
  then ((entities
           ++ [mk_entity table ("Contains " ++ pattern ++ " related data")
                         (round3 relevance) None
                         ("Highly relevant for " ++ pattern ++ " queries")])%list,
        total_score + relevance, S draws)
  else (entities, total_score, S draws).

Definition _analyze_entities_direct (user_query user_intent : string)
  : direct_analysis :=
  let query_lower := lower user_query in
  let intent_lower := lower user_intent in
  let '(applicable_entities, total_score, _) :=
    fold_left
      (fun st pt =>
         let (pattern, tables) := (pt : string * list string) in
         if contains pattern query_lower || contains pattern intent_lower
         then fold_left (direct_table pattern query_lower intent_lower)
                        tables st
         else st)
      table_patterns ([], 0, O) in
  let confidence :=
    total_score
    / inject_Z (Z.of_nat (Nat.max (List.length applicable_entities) 1)) in
  let confidence := Qmin confidence 0.7 in
  mk_direct applicable_entities (round3 confidence)
            ("Direct analysis found "
             ++ str_of_nat (List.length applicable_entities)
             ++ " relevant entities").

Definition _get_cache_key (query intent : string) : string :=
  md5_hexdigest (strip (lower (query ++ ":" ++ intent))).

Definition _get_cached_result (self : t) (cache_key : string)
  : option result :=
  Py.lookup cache_key (_result_cache self).

Definition _cache_result (self : t) (cache_key : string) (r : result) : t :=
  mk (_embedding_cache self)
     (BoundedCache.cache_result 100 (_result_cache self) cache_key r).

(** The ranking path: "Analyze entities" to the end of
    [recognize_entities_optimized]. *)
Definition rank_entities (cache : list (string * Q)) (intent : string)
           (tables : list table_result) (max_entities : Z)
  : result * list (string * Q) :=
  let (entity_analysis, cache) :=
    fold_left (analyze_table intent)
              (slice_to (max_entities * 2) tables) ([], cache) in
  let applicable_entities := select_applicable max_entities entity_analysis in
  (mk_result true None applicable_entities
             (make_recommendations applicable_entities)
             (_generate_analysis_summary applicable_entities intent)
             (round3 (raw_confidence applicable_entities)),
   cache).

Definition recognize_entities_optimized (self : t) (user_query : string)
           (user_intent : option string) (max_entities : Z) : result * t :=
  if String.eqb user_query "" || String.eqb (strip user_query) ""
  then (_empty_entity_result "Query cannot be empty", self)
  else
    let intent :=
      match user_intent with
      | Some i => if String.eqb i "" then user_query else i
      | None => user_query
      end in
    let cache_key := _get_cache_key user_query intent in
    match _get_cached_result self cache_key with
    | Some cached_result => (cached_result, self)
    | None =>
        match search_documentation (strip user_query) with
        | inl error_msg => (_empty_entity_result error_msg, self)
        | inr tables =>
            let direct := _analyze_entities_direct user_query intent in
            if Qgt_bool (direct_confidence direct) 0.55
            then
              let r := mk_result true None (direct_entities direct) []
                                 (direct_analysis_text direct)
                                 (direct_confidence direct) in
              (r, _cache_result self cache_key r)
            else
              match tables with
              | [] =>
                  let r := _empty_entity_result
                             ("No relevant tables found for: " ++ user_query) in
                  (r, _cache_result self cache_key r)
              | _ =>
                  let (r, cache) :=
                    rank_entities (_embedding_cache self) intent tables
                                  max_entities in
                  (r, _cache_result (mk cache (_result_cache self))
                                    cache_key r)
              end
        end
    end.
End WithCollaborators.
End EntityRecognitionAgent.

(** ** [agents/concepts/loader.py] and [agents/concepts/matcher.py] *)

Module Concepts.
Import PyStr PySeq.
Local Open Scope string_scope.
Local Open Scope Q_scope.

(** An entry of [examples]: a dict of strings. *)
Definition example : Type := list (string * string).

Record BusinessConcept : Type := mk_concept {
  name : string;
  description : string;
  target : list string;
  instructions : string;
  required_joins : list string;
  examples : list example
}.

(** [ConceptLoader.get_concepts_for_entities], on the values of
    [self._concepts_cache] in insertion order. *)
Definition get_concepts_for_entities (concepts_cache : list BusinessConcept)
           (entity_names : list string) : list BusinessConcept :=
  let entity_set := dedup entity_names in
  filter (fun concept =>
            match filter (fun entity => mem entity entity_set)
                         (target concept) with
            | [] => false
            | _ => true
            end)
         concepts_cache.

Section WithEmbeddings.
(** [ConceptMatcher._calculate_concept_similarity]: the cosine similarity
    of the two embeddings, [0.0] when the embedding client fails. *)
Variable _calculate_concept_similarity : string -> string -> Q.

(** [ConceptMatcher.match_concepts_to_query] *)
Definition match_concepts_to_query (user_query : string)
           (concepts : list BusinessConcept) (threshold : Q)
  : list (BusinessConcept * Q) :=
  let matches :=
    filter (fun m => Qle_bool threshold (snd m))
           (map (fun concept =>
                   (concept,
                    _calculate_concept_similarity user_query
                                                  (description concept)))
                concepts) in
  sort_desc (fun m => snd m) matches.

(** [ConceptMatcher._rank_examples_by_similarity] *)
Definition _rank_examples_by_similarity (user_query : string)
           (examples : list example) : list (example * Q) :=
  sort_desc (fun m => snd m)
    (map (fun ex =>
            (ex, _calculate_concept_similarity user_query
                                               (Py.get "query" "" ex)))
         examples).

(** [ConceptMatcher.find_similar_examples] *)
Definition find_similar_examples (concept : BusinessConcept)
           (user_query : string) (max_examples : Z) : list (example * Q) :=
  match examples concept with
  | [] => []
  | exs => slice_to max_examples (_rank_examples_by_similarity user_query exs)
  end.
End WithEmbeddings.
End Concepts.

(** ** [agents/business.py]: class [BusinessContextAgent] *)

Module BusinessContextAgent.
Import PyStr PySeq Concepts.
Local Open Scope string_scope.

Record join_validation : Type := mk_join_validation {
  valid : bool;
  missing_entities : list string;
  satisfied_joins : list string;
  unsatisfied_joins : list string
}.

(** The inner loop "for part in parts" of [_validate_required_joins]. *)
Definition add_part (required_entities : list string) (part : string)
  : list string :=
  if contains "." part
  then set_add (strip (hd "" (split "." part))) required_entities
  else required_entities.

(** The loop "for join in required_joins" that fills
    [required_entities]. *)
Definition add_join (required_entities : list string) (join : string)
  : list string :=
  let join_lower := lower join in
  if contains "=" join_lower
  then fold_left add_part (split "=" join_lower) required_entities
  else required_entities.

Definition required_entities_of (required_joins : list string)
  : list string :=
  fold_left add_join required_joins [].

(** The body of the loop "for join in required_joins" that classifies the
    joins; the state is [satisfied_joins] and [unsatisfied_joins]. *)
Definition classify_join (available_entities required_entities : list string)
           (st : list string * list string) (join : string)
  : list string * list string :=
  let can_satisfy :=
    forallb (fun entity => mem entity available_entities)
            required_entities in
  if can_satisfy then ((fst st ++ [join])%list, snd st)
  else (fst st, (snd st ++ [join])%list).

(** [_validate_required_joins] *)
Definition _validate_required_joins (entities : list string)
           (required_joins : list string) : join_validation :=
  let required_entities := required_entities_of required_joins in
  let available_entities := dedup entities in
  let missing_entities :=
    filter (fun e => negb (mem e available_entities)) required_entities in
  let (satisfied, unsatisfied) :=
    fold_left (classify_join available_entities required_entities)
              required_joins ([], []) in
  mk_join_validation
    (match missing_entities with [] => true | _ => false end)
    missing_entities satisfied unsatisfied.

Record matched_concept : Type := mk_matched {
  m_name : string;
  m_description : string;
  m_target_entities : list string;
  m_required_joins : list string;
  m_similarity : Q
}.

Record business_instruction : Type := mk_instruction {
  i_concept : string;
  i_instructions : string;
  i_similarity : Q
}.

Record relevant_example : Type := mk_relevant_example {
  e_example : example;
  e_similarity : Q;
  e_concept_name : string
}.

Record entity_coverage : Type := mk_coverage {
  total_entities : nat;
  entities_with_concepts : nat
}.

Record business_context : Type := mk_context {
  success : bool;
  matched_concepts : list matched_concept;
  business_instructions : list business_instruction;
  relevant_examples : list relevant_example;
  join_validations : list (string * join_validation);
  coverage : entity_coverage
}.

Definition _empty_business_context : business_context :=
  mk_context true [] [] [] [] (mk_coverage 0 0).

Section WithCollaborators.
(** The values of [self.concept_loader._concepts_cache]. *)
Variable concepts_cache : list BusinessConcept.
(** [ConceptMatcher._calculate_concept_similarity] *)
Variable _calculate_concept_similarity : string -> string -> Q.

Definition gather_business_context (user_query : string)
           (applicable_entities : list string) : business_context :=
  match applicable_entities with
  | [] => _empty_business_context
  | _ =>
      let concepts :=
        get_concepts_for_entities concepts_cache applicable_entities in
      match concepts with
      | [] => _empty_business_context
      | _ =>
          let matched :=
            match_concepts_to_query _calculate_concept_similarity
                                    user_query concepts 0.5 in
          let relevant_examples :=
            flat_map
              (fun cs =>
                 map (fun es => mk_relevant_example (fst es) (snd es)
                                                    (name (fst cs)))
                     (find_similar_examples _calculate_concept_similarity
                                            (fst cs) user_query 3))
              matched in
          let business_instructions :=
            map (fun cs => mk_instruction (name (fst cs))
                                          (instructions (fst cs)) (snd cs))
                matched in
          let join_validation :=
            fold_left
              (fun d cs =>
                 Py.set (name (fst cs))
                        (_validate_required_joins applicable_entities
                                                  (required_joins (fst cs)))
                        d)
              matched [] in
          let entities_with_concepts :=
            List.length (dedup (map (fun cs => name (fst cs)) matched)) in
          mk_context true
            (map (fun cs => mk_matched (name (fst cs)) (description (fst cs))
                                       (target (fst cs))
                                       (required_joins (fst cs)) (snd cs))
                 matched)
            business_instructions relevant_examples join_validation
            (mk_coverage (List.length applicable_entities)
                         entities_with_concepts)
      end
  end.
End WithCollaborators.

(** The coverage count as the specification words it: the applicable
    entities that are a target of some matched concept. *)
Definition concept_owning_entities (applicable_entities : list string)
           (matched : list (BusinessConcept * Q)) : list string :=
  filter (fun entity =>
            existsb (fun cs => mem entity (target (fst cs))) matched)
         (dedup applicable_entities).
End BusinessContextAgent.


(** ** [validation/business_validator.py]: class [BusinessValidator] *)

Module PyStrMore.
Import PyStr.
Local Open Scope string_scope.

(** [sep.join(l)] *)
Fixpoint join (sep : string) (l : list string) : string :=
  match l with
  | [] => ""
  | [x] => x
  | x :: l' => x ++ sep ++ join sep l'
  end.

(** [s.replace(old, new)] for a non-empty [old]: the pieces between the
    occurrences of [old], put together again with [new] in between. *)
Definition replace (old new s : string) : string :=
  join new (split old s).
End PyStrMore.

Module BusinessValidator.
Import Py PyStr PyStrMore Concepts.
Local Open Scope string_scope.

(** [_load_validation_rules] *)
Definition required_patterns : list (string * list string) :=
  [("customer_lifetime_value", ["SUM"; "COUNT"; "customer"]);
   ("sales_performance_analysis", ["SUM"; "AVG"; "sales"]);
   ("inventory_analysis", ["COUNT"; "SUM"; "inventory"])].

Definition forbidden_patterns : list (string * list string) :=
  [("customer_lifetime_value", ["DELETE"; "UPDATE"; "DROP"]);
   ("sales_performance_analysis", ["DELETE"; "UPDATE"; "DROP"]);
   ("inventory_analysis", ["DELETE"; "UPDATE"; "DROP"])].

(** The dict returned by [_check_instruction_compliance]; [issue] and
    [warning] are a string or [None]. *)
Record compliance : Type := mk_compliance {
  compliant : bool;
  issue : pyval;
  warning : pyval
}.

Definition _check_instruction_compliance (query instruction : string)
  : compliance :=
  let instruction_lower := lower instruction in
  let query_lower := lower query in
  let ok := mk_compliance true PyNone PyNone in
  let grouping :=
    if contains "group" instruction_lower
    then if negb (contains "group by" query_lower)
         then mk_compliance false
                (PyStr "Grouping required but no GROUP BY clause found")
                PyNone
         else ok
    else ok in
  let aggregation :=
    if contains "calculate" instruction_lower
       || contains "sum" instruction_lower
    then if negb (existsb (fun func => contains func query_lower)
                          ["sum("; "count("; "avg("; "max("; "min("])
         then mk_compliance false
                (PyStr "Aggregation required but no aggregation functions found")
                PyNone
         else grouping
    else grouping in
  if contains "time" instruction_lower || contains "date" instruction_lower
  then if negb (existsb (fun word => contains word query_lower)
                        ["date"; "time"; "year"; "month"; "day"])
       then mk_compliance false
              (PyStr "Time-based analysis required but no date/time filtering found")
              PyNone
       else aggregation
  else aggregation.

(** The dict built by [validate_business_logic] and by
    [_validate_single_concept]. *)
Record logic_result : Type := mk_logic {
  valid : bool;
  issues : list pyval;
  warnings : list pyval
}.

(** [validate_business_logic] *)
Definition validate_business_logic (query : string)
           (business_instructions : list string) : logic_result :=
  fold_left
    (fun acc instruction =>
       let instruction_check :=
         _check_instruction_compliance query instruction in
       if negb (compliant instruction_check)
       then mk_logic false (issues acc ++ [issue instruction_check])%list
                     (warnings acc)
       else if truthy (warning instruction_check)
            then mk_logic (valid acc) (issues acc)
                          (warnings acc ++ [warning instruction_check])%list
            else acc)
    business_instructions (mk_logic true [] []).

(** The dict returned by [check_data_privacy_compliance]. *)
Record privacy_result : Type := mk_privacy {
  privacy_compliant : bool;
  privacy_issues : list string
}.

Definition sensitive_patterns : list string :=
  ["password"; "ssn"; "credit_card"; "social_security";
   "phone"; "email"; "address"; "birth_date"].

Definition check_data_privacy_compliance (query : string) : privacy_result :=
  let query_lower := lower query in
  let privacy_issues :=
    (map (fun pattern =>
            ("Query may expose sensitive data: " ++ pattern)%string)
         (filter (fun pattern => contains pattern query_lower)
                 sensitive_patterns)
     ++ (if contains "select *" query_lower
         then ["SELECT * may expose unnecessary sensitive data"]
         else []))%list in
  mk_privacy (match privacy_issues with [] => true | _ => false end)
             privacy_issues.

(** [_join_exists_in_query] *)
Definition _join_exists_in_query (required_join : string)
           (query_joins : list string) : bool :=
  let required_join_normalized := lower (replace " " "" required_join) in
  existsb (fun query_join =>
             contains required_join_normalized
                      (lower (replace " " "" query_join)))
          query_joins.

(** [_check_aggregation_compliance] *)
Definition _check_aggregation_compliance (query concept_instructions : string)
  : bool :=
  let query_lower := lower query in
  let instructions_lower := lower concept_instructions in
  if existsb (fun word => contains word instructions_lower)
             ["calculate"; "sum"; "total"; "average"]
  then if negb (existsb (fun func => contains func query_lower)
                        ["sum("; "count("; "avg("; "max("; "min("])
       then false
       else true
  else true.

(** The dict returned by [check_required_joins] when nothing is raised. *)
Record joins_result : Type := mk_joins {
  joins_valid : bool;
  missing_joins : list string;
  found_joins : list string
}.

Section WithParser.
(** [_extract_joins_from_query(sqlparse.parse(query)[0])]: the join
    conditions read off the token tree of the first statement, or the
    message of the exception that [sqlparse.parse(query)[0]] raises. *)
Variable extract_query_joins : string -> string + list string.
(** [str(l)] for a list of strings *)
Variable str_of_list : list string -> string.

(** [check_required_joins]; [inl e] stands for the dict
    [{"valid": False, "error": e}]. *)
Definition check_required_joins (query : string)
           (required_joins : list string) : string + joins_result :=
  match extract_query_joins query with
  | inl e => inl e
  | inr query_joins =>
      let missing :=
        filter (fun required_join =>
                  negb (_join_exists_in_query required_join query_joins))
               required_joins in
      inr (mk_joins (match missing with [] => true | _ => false end)
                    missing query_joins)
  end.

(** [_validate_single_concept]; [inl e] stands for the dict
    [{"valid": False, "error": e}], which has neither [issues] nor
    [warnings]. *)
Definition _validate_single_concept (query : string)
           (concept : BusinessConcept) : string + logic_result :=
  let after_joins : string + logic_result :=
    match required_joins concept with
    | [] => inr (mk_logic true [] [])
    | _ =>
        match check_required_joins query (required_joins concept) with
        | inl _ => inl "'missing_joins'"
        | inr join_validation =>
            if negb (joins_valid join_validation)
            then inr (mk_logic false
                        [PyStr ("Missing required joins: "
                                ++ str_of_list
                                     (missing_joins join_validation))]
                        [])
            else inr (mk_logic true [] [])
        end
    end in
  match after_joins with
  | inl e => inl e
  | inr r1 =>
      let r2 :=
        if String.eqb (instructions concept) "" then r1
        else
          let logic_validation :=
            validate_business_logic query [instructions concept] in
          let r :=
            if negb (valid logic_validation)
            then mk_logic false (issues r1 ++ issues logic_validation)%list
                          (warnings r1)
            else r1 in
          match warnings logic_validation with
          | [] => r
          | ws => mk_logic (valid r) (issues r) (warnings r ++ ws)%list
          end in
      let r3 :=
        match lookup (name concept) required_patterns with
        | Some patterns =>
            let query_lower := lower query in
            mk_logic (valid r2) (issues r2)
              (warnings r2
               ++ map (fun pattern =>
                         PyStr ("Expected pattern '" ++ pattern
                                ++ "' not found in query")%string)
                      (filter (fun pattern =>
                                 negb (contains (lower pattern) query_lower))
                              patterns))%list
        | None => r2
        end in
      inr r3
  end.

(** The dict built by [validate_against_concepts] when nothing is
    raised. *)
Record concepts_result : Type := mk_concepts_result {
  c_valid : bool;
  c_issues : list pyval;
  c_warnings : list pyval;
  concept_compliance : list (string * (string + logic_result))
}.

(** The loop of [validate_against_concepts]: [inl e] once an exception
    with message [e] was raised. *)
Definition validate_concept (query : string)
           (acc : string + concepts_result) (concept : BusinessConcept)
  : string + concepts_result :=
  match acc with
  | inl e => inl e
  | inr r =>
      let concept_validation := _validate_single_concept query concept in
      match concept_validation with
      | inl _ => inl "'issues'"
      | inr cv =>
          let compliance :=
            set (name concept) concept_validation (concept_compliance r) in
          let r1 :=
            if negb (valid cv)
            then mk_concepts_result false (c_issues r ++ issues cv)%list
                                    (c_warnings r) compliance
            else mk_concepts_result (c_valid r) (c_issues r)
                                    (c_warnings r) compliance in
          match warnings cv with
          | [] => inr r1
          | ws => inr (mk_concepts_result (c_valid r1) (c_issues r1)
                                          (c_warnings r1 ++ ws)%list
                                          (concept_compliance r1))
          end
      end
  end.

(** [validate_against_concepts] on a list of [BusinessConcept] objects;
    [inl e] stands for the dict
    [{"valid": False, "error": e, "issues": [], "warnings": []}]. *)
Definition validate_against_concepts (query : string)
           (applicable_concepts : list BusinessConcept)
  : string + concepts_result :=
  fold_left (validate_concept query) applicable_concepts
            (inr (mk_concepts_result true [] [] [])).
End WithParser.

(** [type(v).__name__] *)
Definition type_name (v : pyval) : string :=
  match v with
  | PyNone => "NoneType"
  | PyBool _ => "bool"
  | PyInt _ => "int"
  | PyStr _ => "str"
  | PyList _ => "list"
  | PyDict _ => "dict"
  end.

(** The first element that [for concept in v] yields: [inl e] when [v]
    is not iterable, [inr None] when it yields nothing. *)
Definition first_item (v : pyval) : string + option pyval :=
  match v with
  | PyList [] => inr None
  | PyList (x :: _) => inr (Some x)
  | PyDict [] => inr None
  | PyDict ((k, _) :: _) => inr (Some (PyStr k))
  | PyStr EmptyString => inr None
  | PyStr (String c _) => inr (Some (PyStr (String c EmptyString)))
  | _ => inl ("'" ++ type_name v ++ "' object is not iterable")
  end.

Definition error_dict (e : string) : pyval :=
  PyDict [("valid", PyBool false); ("error", PyStr e);
          ("issues", PyList []); ("warnings", PyList [])].

(** [validate_against_concepts] on plain values (dicts, lists, strings,
    numbers, [None]), none of which has the attributes [required_joins]
    and [name] of a [BusinessConcept]: for the first concept,
    [_validate_single_concept] catches the [AttributeError] of
    [concept.required_joins], and [concept.name] then raises in
    [validate_against_concepts] itself. *)
Definition validate_against_concepts_plain (query : string)
           (applicable_concepts : pyval) : pyval :=
  match first_item applicable_concepts with
  | inl e => error_dict e
  | inr None =>
      PyDict [("valid", PyBool true); ("issues", PyList []);
              ("warnings", PyList []); ("concept_compliance", PyDict [])]
  | inr (Some concept) =>
      error_dict ("'" ++ type_name concept
                  ++ "' object has no attribute 'name'")
  end.
End BusinessValidator.

(** ** [validation/query_optimizer.py]: performance analysis *)

Module QueryOptimizerAnalysis.
Import PyStr.
Local Open Scope string_scope.

(** One entry of [optimization_suggestions]. *)
Record suggestion : Type := mk_suggestion {
  s_type : string;
  s_priority : string;
  s_message : string;
  s_impact : string
}.

(** One entry of [performance_issues]. *)
Record perf_issue : Type := mk_perf_issue {
  p_type : string;
  p_severity : string;
  p_description : string
}.

(** [_get_optimization_suggestions] *)
Definition _get_optimization_suggestions (query : string) : list suggestion :=
  let query_lower := lower query in
  ((if contains "select *" query_lower
    then [mk_suggestion "performance" "high"
            "Replace SELECT * with specific column names" "medium"]
    else [])
   ++ (if contains "from" query_lower && negb (contains "where" query_lower)
       then [mk_suggestion "performance" "medium"
               "Consider adding WHERE clause for large tables" "high"]
       else [])
   ++ (if (2 <? count "join" query_lower)%nat
       then [mk_suggestion "performance" "medium"
               "Multiple JOINs detected - consider optimizing join order"
               "medium"]
       else [])
   ++ (if contains "select" query_lower && contains "(" query_lower
       then [mk_suggestion "performance" "low"
               "Consider using JOINs instead of subqueries in SELECT"
               "medium"]
       else []))%list.

(** [_identify_performance_issues] *)
Definition _identify_performance_issues (query : string) : list perf_issue :=
  let query_lower := lower query in
  ((if contains "select *" query_lower
    then [mk_perf_issue "anti_pattern" "warning"
            "SELECT * usage may return unnecessary data"]
    else [])
   ++ (if contains "order by" query_lower
          && negb (contains "limit" query_lower)
       then [mk_perf_issue "performance" "info"
               "ORDER BY without LIMIT may process large result sets"]
       else [])
   ++ (if (3 <? count "select" query_lower)%nat
       then [mk_perf_issue "complexity" "warning"
               "Multiple SELECT statements may indicate inefficient query structure"]
       else []))%list.

(** [_estimate_optimization_impact] *)
Definition _estimate_optimization_impact (suggestions : list suggestion)
           (issues : list perf_issue) : string :=
  let high_priority_count :=
    List.length (filter (fun s => String.eqb (s_priority s) "high")
                        suggestions) in
  let high_impact_count :=
    List.length (filter (fun s => String.eqb (s_impact s) "high")
                        suggestions) in
  if (0 <? high_priority_count)%nat || (0 <? high_impact_count)%nat
  then "high"
  else if (2 <? List.length suggestions)%nat
          || (2 <? List.length issues)%nat
       then "medium"
       else "low".

(** The dict returned by [analyze_performance]. *)
Record analysis : Type := mk_analysis {
  complexity_score : Z;
  optimization_suggestions : list suggestion;
  performance_issues : list perf_issue;
  estimated_impact : string
}.

(** [analyze_performance]; the execution plan is not used. *)
Definition analyze_performance (query : string) : analysis :=
  let complexity_score := QueryOptimizer._calculate_complexity_score query in
  let suggestions := _get_optimization_suggestions query in
  let performance_issues := _identify_performance_issues query in
  let impact_level :=
    _estimate_optimization_impact suggestions performance_issues in
  mk_analysis complexity_score suggestions performance_issues impact_level.

(** The dict returned by [_analyze_join_structure]. *)
Record join_structure : Type := mk_join_structure {
  join_count : nat;
  has_cross_join : bool;
  has_subquery_joins : bool;
  join_types : list string
}.

Definition _analyze_join_structure (query : string) : join_structure :=
  let query_lower := lower query in
  mk_join_structure
    (count "join" query_lower)
    (contains "cross join" query_lower)
    (contains "join" query_lower && contains "(" query_lower)
    ((if contains "cross join" query_lower then ["CROSS"] else [])
     ++ (if contains "inner join" query_lower then ["INNER"] else [])
     ++ (if contains "left join" query_lower then ["LEFT"] else [])
     ++ (if contains "right join" query_lower then ["RIGHT"] else []))%list.

(** [suggest_query_rewrite] *)
Definition suggest_query_rewrite (query : string) : option string :=
  let query_lower := lower query in
  let rewritten_query := query in
  let rewritten_query :=
    if contains "select *" query_lower
    then PyStrMore.replace "SELECT *" "SELECT id, name, created_date"
                           rewritten_query
    else rewritten_query in
  let rewritten_query :=
    if contains "where" query_lower && contains "like '%" query_lower
    then PyStrMore.replace "LIKE '%" "LIKE '" rewritten_query
    else rewritten_query in
  if String.eqb rewritten_query query then None else Some rewritten_query.
End QueryOptimizerAnalysis.

(** ** [agents/entity_recognition.py]: [_get_entity_recommendations] *)

Module EntityRecommendations.
Import PyStr PySeq EntityRecognitionAgent.
Local Open Scope string_scope.

(** The dict returned by [_get_entity_recommendations];
    [total_recommendations] is missing when there is no entity. *)
Record recommendations_result : Type := mk_recommendations_result {
  rr_success : bool;
  rr_recommendations : list recommendation_entry;
  rr_total_recommendations : option nat;
  rr_message : string
}.

Definition _get_entity_recommendations (applicable_entities : list entity)
           (max_recommendations : Z) : recommendations_result :=
  match applicable_entities with
  | [] => mk_recommendations_result true [] None
                                    "No applicable entities found"
  | _ =>
      let recommendations :=
        make_recommendations
          (slice_to max_recommendations applicable_entities) in
      mk_recommendations_result
        true recommendations (Some (List.length recommendations))
        ("Generated " ++ str_of_nat (List.length recommendations)
         ++ " recommendations")
  end.
End EntityRecommendations.

(** ** [agents/concepts/loader.py]: the cache of [ConceptLoader] *)

Module ConceptLoader.
Import PyStr Concepts.
Local Open Scope string_scope.

(** The loop of [_load_all_concepts] over the concept files; [files] holds
    what [_load_concept_file] returns for each of them, in the order of
    [concept_files]. *)
Definition _load_all_concepts (files : list (list BusinessConcept))
  : list (string * BusinessConcept) :=
  fold_left
    (fun cache concepts =>
       fold_left (fun cache concept => Py.set (name concept) concept cache)
                 concepts cache)
    files [].

(** [get_all_concepts]: [list(self._concepts_cache.values())] *)
Definition get_all_concepts (_concepts_cache : list (string * BusinessConcept))
  : list BusinessConcept :=
  map snd _concepts_cache.

(** [get_concept_by_name] *)
Definition get_concept_by_name
           (_concepts_cache : list (string * BusinessConcept))
           (concept_name : string) : option BusinessConcept :=
  Py.lookup concept_name _concepts_cache.
End ConceptLoader.

(** ** [agents/concepts/matcher.py]: the keyword similarity *)

Module ConceptMatcher.
Import PyStr.
Local Open Scope string_scope.
Local Open Scope Q_scope.

(** [ConceptMatcher._simple_similarity] *)
Definition _simple_similarity (query description : string) : Q :=
  let query_words := dedup (split_ws (lower query)) in
  let desc_words := dedup (split_ws (lower description)) in
  match query_words, desc_words with
  | [], _ => 0
  | _, [] => 0
  | _, _ =>
      let intersection :=
        filter (fun w => mem w desc_words) query_words in
      let union :=
        (query_words
           ++ filter (fun w => negb (mem w query_words)) desc_words)%list in
      match union with
      | [] => 0
      | _ => inject_Z (Z.of_nat (List.length intersection))
             / inject_Z (Z.of_nat (List.length union))
      end
  end.
End ConceptMatcher.

(* ================================================================== *)
(** * Part II: properties                                              *)
(* ================================================================== *)

(** ** Facts about the string primitives *)

Module PyStrFacts.
Import PyStr.
Local Open Scope string_scope.

Lemma to_upper_not_lower (c : ascii) : is_lower_ascii (to_upper c) = false.
Proof.
  destruct c as [[] [] [] [] [] [] [] []]; reflexivity.
Qed.

(** A pattern that starts with a lower-case letter is a prefix of no
    upper-cased text. *)
Lemma prefix_upper_lower (c : ascii) (p s : string) :
  is_lower_ascii c = true -> String.prefix (String c p) (upper s) = false.
Proof.
  intros Hc. destruct s as [|b s]; simpl; [reflexivity|].
  destruct (ascii_dec c (to_upper b)) as [E|_]; [|reflexivity].
  rewrite E, to_upper_not_lower in Hc. discriminate.
Qed.

(** ... and so it occurs nowhere in it. *)
Lemma contains_upper_lower (c : ascii) (p s : string) :
  is_lower_ascii c = true -> contains (String c p) (upper s) = false.
Proof.
  intros Hc. induction s as [|b s IH].
  - reflexivity.
  - change (upper (String b s)) with (String (to_upper b) (upper s)).
    cbn [contains].
    change (String (to_upper b) (upper s)) with (upper (String b s)).
    rewrite (@prefix_upper_lower c p (String b s) Hc). exact IH.
Qed.

Lemma mem_In (x : string) (l : list string) : mem x l = true <-> In x l.
Proof.
  unfold mem. rewrite existsb_exists. split.
  - intros [y [Hy E]]. apply String.eqb_eq in E. now subst.
  - intros H. exists x. split; [exact H | apply String.eqb_refl].
Qed.

Lemma mem_false (x : string) (l : list string) :
  mem x l = false <-> ~ In x l.
Proof.
  rewrite <- mem_In. destruct (mem x l); split; congruence.
Qed.

Lemma In_set_add (x y : string) (s : list string) :
  In y (set_add x s) <-> y = x \/ In y s.
Proof.
  unfold set_add. destruct (mem x s) eqn:E.
  - apply mem_In in E. split; [now right | intros [->|H]; assumption].
  - rewrite in_app_iff. simpl. intuition.
Qed.

Lemma In_dedup (x : string) (l : list string) : In x (dedup l) <-> In x l.
Proof.
  induction l as [|y l IH]; simpl; [tauto|].
  destruct (mem y l) eqn:E.
  - apply mem_In in E. rewrite IH. split; [now right|].
    intros [->|H]; assumption.
  - simpl. rewrite IH. tauto.
Qed.

Lemma mem_dedup (x : string) (l : list string) : mem x (dedup l) = mem x l.
Proof.
  destruct (mem x l) eqn:E.
  - apply mem_In. apply In_dedup. now apply mem_In.
  - apply mem_false. rewrite In_dedup. now apply mem_false.
Qed.
End PyStrFacts.

(** ** The T-SQL validator *)

Module TSQLValidatorFacts.
Import PyStr PyStrFacts TSQLValidator.
Local Open Scope string_scope.

(** The scan for forbidden keywords is case-insensitive and decides
    [valid]. *)
Lemma validate_security_forbidden (query keyword : string) :
  In keyword forbidden_keywords ->
  contains keyword (upper query) = true ->
  sec_valid (validate_security query) = false
  /\ In keyword (sec_forbidden_operations (validate_security query)).
Proof.
  intros Hin Hc.
  assert (H : In keyword (filter (fun k => contains k (upper query))
                                 forbidden_keywords))
    by (apply filter_In; split; assumption).
  unfold validate_security; cbn [sec_valid sec_forbidden_operations].
  split; [|exact H].
  destruct (filter _ forbidden_keywords); [destruct H | reflexivity].
Qed.

Lemma validate_security_clean (query : string) :
  (forall keyword, In keyword forbidden_keywords ->
                   contains keyword (upper query) = false) ->
  sec_valid (validate_security query) = true
  /\ sec_forbidden_operations (validate_security query) = [].
Proof.
  intros H.
  assert (E : filter (fun k => contains k (upper query)) forbidden_keywords
              = []).
  { induction forbidden_keywords as [|k l IH]; [reflexivity|].
    simpl. rewrite (H k (or_introl eq_refl)). apply IH.
    intros k' Hk'. apply H. now right. }
  unfold validate_security; cbn [sec_valid sec_forbidden_operations].
  now rewrite E.
Qed.

Example validate_security_drop :
  validate_security "DROP TABLE x" = mk_security_result false [] ["DROP"].
Proof. reflexivity. Qed.

Example validate_security_select :
  validate_security "SELECT * FROM x" = mk_security_result true [] [].
Proof. reflexivity. Qed.

(** No query ever gets an entry in [risks]: each pattern of the three risk
    scans starts with a lower-case letter and is looked for in
    [query_upper]. *)
Lemma validate_security_risks_empty (query : string) :
  sec_risks (validate_security query) = [].
Proof.
  unfold validate_security; cbn [sec_risks].
  unfold injection_patterns, system_tables. cbn [filter].
  repeat (rewrite contains_upper_lower by reflexivity).
  reflexivity.
Qed.

(** C2 (the code at a failing input): the query
    [select name from sys.tables; exec sp_help] contains the system-table
    prefix [sys.] and the injection patterns [sp_] and [exec], and
    [validate_security] returns it with an empty [risks] list. *)
Theorem validate_security_misses_risks :
  let query := "select name from sys.tables; exec sp_help" in
  contains "sys." query = true
  /\ contains "sp_" query = true
  /\ contains "sys." (lower query) = true
  /\ contains "sp_" (lower query) = true
  /\ validate_security query = mk_security_result true [] [].
Proof. repeat split; reflexivity. Qed.
End TSQLValidatorFacts.

Module SyntaxFacts.
Import PyStr TSQLValidator.
Local Open Scope string_scope.

(** The validity of a statement list is the conjunction of the validity of
    its statements. *)
Lemma validate_statements_valid (statements : list string)
      (acc : syntax_result) :
  syn_valid (validate_statements statements acc)
  = syn_valid acc
    && forallb (fun s => syn_valid (_validate_statement s)) statements.
Proof.
  revert acc. induction statements as [|s l IH]; intros acc.
  - simpl. now rewrite andb_true_r.
  - cbn [validate_statements forallb]. rewrite IH.
    destruct (syn_valid (_validate_statement s)) eqn:E;
      destruct (syn_warnings (_validate_statement s));
      cbn [negb syn_valid]; try reflexivity;
      now rewrite ?andb_true_r, ?andb_false_r.
Qed.

(** An empty statement list is rejected with the error "Empty query". *)
Lemma validate_syntax_empty (parse : string -> string + list string)
      (query : string) :
  parse query = inr [] ->
  validate_syntax parse query = mk_syntax_result false ["Empty query"] [].
Proof. intros E. unfold validate_syntax. now rewrite E. Qed.

(** A statement with unbalanced parentheses makes the query invalid. *)
Lemma validate_syntax_unbalanced (parse : string -> string + list string)
      (query : string) (statements : list string) (s : string) :
  parse query = inr statements ->
  In s statements ->
  count "(" (strip s) <> count ")" (strip s) ->
  syn_valid (validate_syntax parse query) = false.
Proof.
  intros E Hin Hne. unfold validate_syntax. rewrite E.
  destruct statements as [|s0 l]; [reflexivity|].
  rewrite validate_statements_valid. cbn [syn_valid andb].
  destruct (forallb _ (s0 :: l)) eqn:F; [|reflexivity].
  rewrite forallb_forall in F. specialize (F s Hin).
  unfold _validate_statement in F.
  destruct (String.eqb (strip s) ""); [discriminate|].
  cbn [syn_valid] in F. apply andb_prop in F. destruct F as [_ F].
  apply Nat.eqb_neq in Hne. rewrite Hne in F. discriminate.
Qed.

(** A statement in which neither [SELECT] nor [FROM] occurs makes the
    query invalid. *)
Lemma validate_syntax_no_keyword (parse : string -> string + list string)
      (query : string) (statements : list string) (s : string) :
  parse query = inr statements ->
  In s statements ->
  contains "SELECT" (upper (strip s)) = false ->
  contains "FROM" (upper (strip s)) = false ->
  syn_valid (validate_syntax parse query) = false.
Proof.
  intros E Hin H1 H2. unfold validate_syntax. rewrite E.
  destruct statements as [|s0 l]; [reflexivity|].
  rewrite validate_statements_valid. cbn [syn_valid andb].
  destruct (forallb _ (s0 :: l)) eqn:F; [|reflexivity].
  rewrite forallb_forall in F. specialize (F s Hin).
  unfold _validate_statement in F.
  destruct (String.eqb (strip s) ""); [discriminate|].
  cbn [syn_valid existsb] in F. rewrite H1, H2 in F. discriminate.
Qed.

(** The semicolon test feeds [warnings] only: whether a statement is valid
    is decided by the keyword test and the parenthesis count. *)
Lemma validate_statement_valid (s : string) :
  syn_valid (_validate_statement s)
  = negb (String.eqb (strip s) "")
    && (contains "SELECT" (upper (strip s))
        || contains "FROM" (upper (strip s)))
    && Nat.eqb (count "(" (strip s)) (count ")" (strip s)).
Proof.
  unfold _validate_statement.
  destruct (String.eqb (strip s) ""); [reflexivity|].
  cbn [syn_valid existsb negb andb]. rewrite orb_false_r.
  now rewrite !negb_involutive.
Qed.

Example validate_syntax_select_star :
  validate_syntax (fun q => inr [q]) "SELECT * FROM customers"
  = mk_syntax_result true [] [].
Proof. reflexivity. Qed.

Example validate_syntax_semicolon :
  validate_syntax (fun q => inr [q]) "SELECT * FROM customers;"
  = mk_syntax_result true [] ["Semicolon at end of statement"].
Proof. reflexivity. Qed.

(** C6 (the code at a failing input): a query that parses into the single
    statement [SELECT 1], which has no [FROM], is returned as valid and
    without errors, for the keyword test fails only when neither keyword
    occurs. *)
Theorem validate_syntax_accepts_select_without_from
        (parse : string -> string + list string) :
  parse "SELECT 1" = inr ["SELECT 1"] ->
  contains "FROM" (upper "SELECT 1") = false
  /\ validate_syntax parse "SELECT 1" = mk_syntax_result true [] [].
Proof.
  intros E. split; [reflexivity|].
  unfold validate_syntax. rewrite E. reflexivity.
Qed.

Lemma validate_syntax_accepts_select_without_from_witness :
  (fun q : string => inr [q] : string + list string) "SELECT 1"
  = inr ["SELECT 1"]
  /\ contains "FROM" (upper "SELECT 1") = false
  /\ validate_syntax (fun q => inr [q]) "SELECT 1"
     = mk_syntax_result true [] [].
Proof.
  split; [reflexivity|].
  apply (@validate_syntax_accepts_select_without_from (fun q => inr [q])).
  reflexivity.
Defined.
End SyntaxFacts.

(** ** The query optimizer *)

Module QueryOptimizerFacts.
Import PyStr QueryOptimizer.
Local Open Scope string_scope.
Local Open Scope Z_scope.

(** C7 (counterexample): on the query [)] the code returns [-2], the
    formula with the absolute value gives [2]. *)
Lemma complexity_score_not_abs :
  _calculate_complexity_score ")" = -2
  /\ spec_complexity_score ")" = 2
  /\ _calculate_complexity_score ")" <> spec_complexity_score ")".
Proof. repeat split; try reflexivity. discriminate. Qed.

(** C7 (amended): the complexity score is the weighted sum of the keyword
    counts over the lower-cased text plus twice the signed difference
    between the number of opening and of closing parentheses of the raw
    text. *)
Theorem complexity_score_formula (query : string) :
  _calculate_complexity_score query
  = 5 * Z.of_nat (count "join" (lower query))
    + 2 * Z.of_nat (count "select" (lower query))
    + 3 * Z.of_nat (count "where" (lower query))
    + 4 * Z.of_nat (count "group by" (lower query))
    + 3 * Z.of_nat (count "order by" (lower query))
    + 4 * Z.of_nat (count "having" (lower query))
    + 6 * Z.of_nat (count "union" (lower query))
    + 5 * Z.of_nat (count "subquery" (lower query))
    + 2 * (Z.of_nat (count "(" query) - Z.of_nat (count ")" query)).
Proof. unfold _calculate_complexity_score. lia. Qed.

(** The code and the formula with the absolute value agree exactly on the
    queries that close no more parentheses than they open. *)
Lemma complexity_score_abs_iff (query : string) :
  _calculate_complexity_score query = spec_complexity_score query
  <-> (count ")" query <= count "(" query)%nat.
Proof.
  unfold _calculate_complexity_score, spec_complexity_score. lia.
Qed.
End QueryOptimizerFacts.

(** ** The bounded caches *)

Module BoundedCacheFacts.
Import BoundedCache.

Section Dict.
Variable V : Type.
Implicit Types (d : list (string * V)) (k : string) (v : V).

Lemma keys_set_in d k v :
  In k (Py.keys d) -> Py.keys (Py.set k v d) = Py.keys d.
Proof.
  induction d as [|[k' v'] d IH]; simpl; [tauto|].
  intros H. destruct (String.eqb k k') eqn:E; [reflexivity|].
  simpl. f_equal. apply IH. destruct H as [H|H]; [|exact H].
  subst. rewrite String.eqb_refl in E. discriminate.
Qed.

Lemma set_fresh d k v :
  ~ In k (Py.keys d) -> Py.set k v d = d ++ [(k, v)].
Proof.
  induction d as [|[k' v'] d IH]; simpl; [reflexivity|].
  intros H. destruct (String.eqb k k') eqn:E.
  - apply String.eqb_eq in E. subst. tauto.
  - f_equal. apply IH. tauto.
Qed.

Lemma length_set_in d k v :
  In k (Py.keys d) -> List.length (Py.set k v d) = List.length d.
Proof.
  intros H. rewrite <- (length_map fst (Py.set k v d)).
  change (map fst (Py.set k v d)) with (Py.keys (Py.set k v d)).
  rewrite keys_set_in by exact H. apply length_map.
Qed.

Lemma wf_set d k v : wf d -> wf (Py.set k v d).
Proof.
  unfold wf. intros H.
  destruct (in_dec string_dec k (Py.keys d)) as [Hin|Hni].
  - now rewrite keys_set_in.
  - rewrite set_fresh by exact Hni. unfold Py.keys. rewrite map_app. simpl.
    apply NoDup_app; [exact H | repeat constructor; simpl; tauto | ].
    intros x Hx [<-|[]]. exact (Hni Hx).
Qed.

Lemma length_set_le d k v :
  (List.length (Py.set k v d) <= S (List.length d))%nat.
Proof.
  induction d as [|[k' v'] d IH]; simpl; [lia|].
  destruct (String.eqb k k'); simpl; lia.
Qed.

Lemma del_head d k v :
  Py.del k ((k, v) :: d) = d.
Proof. simpl. now rewrite String.eqb_refl. Qed.

(** Deleting the first [n] keys of a dict, one by one, drops its first [n]
    entries. *)
Lemma del_oldest (n : nat) d :
  fold_left (fun c key => Py.del key c) (firstn n (Py.keys d)) d
  = skipn n d.
Proof.
  revert d. induction n as [|n IH]; intros d; [reflexivity|].
  destruct d as [|[k v] d]; [reflexivity|].
  cbn [Py.keys map firstn fold_left fst skipn].
  rewrite del_head. apply IH.
Qed.

(** What one insertion does: the dict after [cache[key] = result], minus
    its ten oldest entries when it has outgrown the limit. *)
Lemma cache_result_eq (limit : Z) d k v :
  cache_result limit d k v
  = if (limit <? Z.of_nat (List.length (Py.set k v d)))%Z
    then skipn 10 (Py.set k v d)
    else Py.set k v d.
Proof.
  unfold cache_result. destruct (_ <? _)%Z; [apply del_oldest | reflexivity].
Qed.

Lemma wf_skipn (n : nat) d : wf d -> wf (skipn n d).
Proof.
  unfold wf, Py.keys. intros H. rewrite <- skipn_map.
  rewrite <- (firstn_skipn n (map fst d)) in H.
  now apply NoDup_app_remove_l in H.
Qed.

Lemma wf_cache_result (limit : Z) d k v :
  wf d -> wf (cache_result limit d k v).
Proof.
  intros H. rewrite cache_result_eq.
  destruct (_ <? _)%Z; [apply wf_skipn|]; now apply wf_set.
Qed.

(** One insertion keeps the size within the limit. *)
Lemma cache_result_bounded (limit : Z) d k v :
  (0 <= limit)%Z ->
  (Z.of_nat (List.length d) <= limit)%Z ->
  (Z.of_nat (List.length (cache_result limit d k v)) <= limit)%Z.
Proof.
  intros H0 H. rewrite cache_result_eq.
  pose proof (length_set_le d k v) as L.
  destruct (_ <? _)%Z eqn:E.
  - rewrite length_skipn. lia.
  - apply Z.ltb_ge in E. exact E.
Qed.

Lemma run_app (limit : Z) d (l1 l2 : list (string * V)) :
  run limit d (l1 ++ l2) = run limit (run limit d l1) l2.
Proof. unfold run. apply fold_left_app. Qed.

Lemma run_bounded (limit : Z) (inserts : list (string * V)) d :
  (0 <= limit)%Z ->
  (Z.of_nat (List.length d) <= limit)%Z ->
  (Z.of_nat (List.length (run limit d inserts)) <= limit)%Z.
Proof.
  intros H0. revert d. induction inserts as [|[k v] l IH]; intros d H.
  - exact H.
  - apply IH. now apply cache_result_bounded.
Qed.

Lemma run_wf (limit : Z) (inserts : list (string * V)) d :
  wf d -> wf (run limit d inserts).
Proof.
  revert d. induction inserts as [|[k v] l IH]; intros d H; [exact H|].
  apply IH. now apply wf_cache_result.
Qed.
End Dict.

(** Folding the two [_cache_result] methods over a sequence of insertions
    is [run] on the underlying dict. *)
Lemma caching_mixin_run (V : Type) (cache_size : Z)
      (inserts : list (string * V)) (d : list (string * V)) :
  fold_left (fun s kv => CachingMixin._cache_result s (fst kv) (snd kv))
            inserts (CachingMixin.mk d cache_size)
  = CachingMixin.mk (run cache_size d inserts) cache_size.
Proof.
  revert d. induction inserts as [|kv l IH]; intros d; [reflexivity|].
  cbn [fold_left]. unfold CachingMixin._cache_result at 2.
  cbn [CachingMixin._cache CachingMixin._cache_size]. apply IH.
Qed.

Lemma entity_agent_run
      (inserts : list (string * EntityRecognitionAgent.result))
      (e : list (string * Q))
      (d : list (string * EntityRecognitionAgent.result)) :
  fold_left
    (fun a kv => EntityRecognitionAgent._cache_result a (fst kv) (snd kv))
    inserts (EntityRecognitionAgent.mk e d)
  = EntityRecognitionAgent.mk e (run 100 d inserts).
Proof.
  revert d. induction inserts as [|kv l IH]; intros d; [reflexivity|].
  cbn [fold_left]. unfold EntityRecognitionAgent._cache_result at 2.
  cbn [EntityRecognitionAgent._embedding_cache
         EntityRecognitionAgent._result_cache]. apply IH.
Qed.

(** C9: starting from the empty cache, after each insertion of a sequence
    the cache holds no more entries than its limit ([self._cache_size] for
    [CachingMixin], 100 for the result cache of the entity-recognition
    agent); and the insertion that follows stores the result and, when the
    dict has then outgrown the limit, removes its ten oldest entries (its
    first ten in insertion order). *)
Theorem cache_size_never_exceeds_limit (V : Type) (cache_size : Z)
        (inserts : list (string * V))
        (entity_inserts : list (string * EntityRecognitionAgent.result))
        (n : nat) (cache_key : string) (result : V)
        (entity_result : EntityRecognitionAgent.result) :
  (0 <= cache_size)%Z ->
  let self :=
    fold_left (fun s kv => CachingMixin._cache_result s (fst kv) (snd kv))
              (firstn n inserts) (CachingMixin.init V cache_size) in
  let agent :=
    fold_left
      (fun a kv => EntityRecognitionAgent._cache_result a (fst kv) (snd kv))
      (firstn n entity_inserts) EntityRecognitionAgent.init in
  (Z.of_nat (List.length (CachingMixin._cache self)) <= cache_size)%Z
  /\ (List.length (EntityRecognitionAgent._result_cache agent) <= 100)%nat
  /\ CachingMixin._cache (CachingMixin._cache_result self cache_key result)
     = (let stored := Py.set cache_key result (CachingMixin._cache self) in
        if (cache_size <? Z.of_nat (List.length stored))%Z
        then skipn 10 stored else stored)
  /\ EntityRecognitionAgent._result_cache
       (EntityRecognitionAgent._cache_result agent cache_key entity_result)
     = (let stored :=
          Py.set cache_key entity_result
                 (EntityRecognitionAgent._result_cache agent) in
        if (100 <? Z.of_nat (List.length stored))%Z
        then skipn 10 stored else stored).
Proof.
  intros H0 self agent. subst self agent.
  unfold CachingMixin.init, EntityRecognitionAgent.init.
  rewrite caching_mixin_run, entity_agent_run.
  cbn [CachingMixin._cache CachingMixin._cache_result
       CachingMixin._cache_size EntityRecognitionAgent._result_cache
       EntityRecognitionAgent._cache_result].
  split; [|split; [|split]].
  - apply run_bounded; simpl; lia.
  - assert (Z.of_nat (List.length
                        (run 100 [] (firstn n entity_inserts))) <= 100)%Z
      by (apply run_bounded; simpl; lia).
    lia.
  - apply cache_result_eq.
  - apply cache_result_eq.
Qed.

Lemma cache_size_never_exceeds_limit_witness :
  (0 <= 1)%Z
  /\ (Z.of_nat (List.length
        (CachingMixin._cache
           (fold_left
              (fun s kv => CachingMixin._cache_result s (fst kv) (snd kv))
              (firstn 3 [("a"%string, 1%nat); ("b"%string, 2%nat);
                         ("c"%string, 3%nat)])
              (CachingMixin.init nat 1)))) <= 1)%Z.
Proof.
  split; [lia|].
  apply (@cache_size_never_exceeds_limit nat 1
           [("a"%string, 1%nat); ("b"%string, 2%nat); ("c"%string, 3%nat)]
           [] 3 "d"%string 4%nat
           (EntityRecognitionAgent._empty_entity_result ""%string)).
  lia.
Defined.
End BoundedCacheFacts.

(** ** Looking up what was just cached *)

Module CacheLookupFacts.
Import BoundedCache BoundedCacheFacts.

Section Dict.
Variable V : Type.
Implicit Types (d : list (string * V)) (k : string) (v : V).

Lemma lookup_None d k : Py.lookup k d = None <-> ~ In k (Py.keys d).
Proof.
  induction d as [|[k' v'] d IH]; simpl; [tauto|].
  destruct (String.eqb k k') eqn:E.
  - apply String.eqb_eq in E. subst. split; [discriminate | tauto].
  - apply String.eqb_neq in E. rewrite IH. split; [|tauto].
    intros H [H'|H']; [congruence | tauto].
Qed.

Lemma lookup_app d1 d2 k :
  Py.lookup k (d1 ++ d2)
  = match Py.lookup k d1 with
    | Some v => Some v
    | None => Py.lookup k d2
    end.
Proof.
  induction d1 as [|[k' v'] d1 IH]; simpl; [reflexivity|].
  destruct (String.eqb k k'); [reflexivity | exact IH].
Qed.

Lemma lookup_skipn_None (n : nat) d k :
  Py.lookup k d = None -> Py.lookup k (skipn n d) = None.
Proof.
  rewrite !lookup_None. intros H H'. apply H.
  unfold Py.keys in *. rewrite <- skipn_map in H'.
  rewrite <- (firstn_skipn n (map fst d)). apply in_or_app. now right.
Qed.

(** A result stored under a new key is found again, as long as the limit
    is at least ten: the eviction then removes older entries only. *)
Lemma lookup_cache_result_fresh (limit : Z) d k v :
  (10 <= limit)%Z ->
  Py.lookup k d = None ->
  Py.lookup k (cache_result limit d k v) = Some v.
Proof.
  intros Hl Hk. rewrite cache_result_eq.
  rewrite set_fresh by (now apply lookup_None).
  assert (Hlast : Py.lookup k [(k, v)] = Some v)
    by (simpl; now rewrite String.eqb_refl).
  destruct (_ <? _)%Z eqn:E.
  - apply Z.ltb_lt in E. rewrite length_app in E. simpl in E.
    rewrite skipn_app.
    replace (10 - List.length d)%nat with 0%nat by lia.
    rewrite skipn_O, lookup_app, lookup_skipn_None by exact Hk.
    exact Hlast.
  - rewrite lookup_app, Hk. exact Hlast.
Qed.
End Dict.
End CacheLookupFacts.

(** ** The SQL-generation agent *)

Module NL2SQLAgentFacts.
Import Py PyStr NL2SQLAgent BoundedCache BoundedCacheFacts CacheLookupFacts.
Local Open Scope string_scope.

Section WithCollaborators.
Variable sqlparse_parse : string -> string + list string.
Variable validate_against_concepts : string -> pyval -> string + pyval.
Variable _execute_query_impl : string -> Z -> pyval.
Variable md5_hexdigest : string -> string.
Variable context_hash : pyval -> string.

Local Abbreviation validate := (validate sqlparse_parse).
Local Abbreviation run_validators :=
  (run_validators sqlparse_parse validate_against_concepts
                  _execute_query_impl).
Local Abbreviation _execute_parallel_validation :=
  (_execute_parallel_validation sqlparse_parse validate_against_concepts
                                _execute_query_impl md5_hexdigest
                                context_hash).
Local Abbreviation validate_sql :=
  (validate_sql sqlparse_parse validate_against_concepts
                _execute_query_impl md5_hexdigest context_hash).
Local Abbreviation cache_key_of := (cache_key_of md5_hexdigest context_hash).

(** What the three registered validators return. *)
Lemma validate_syntax_registered (sql : string) :
  validate sql "syntax"
  = TSQLValidator.syntax_to_py
      (TSQLValidator.validate_syntax sqlparse_parse sql).
Proof. reflexivity. Qed.

Lemma validate_security_registered (sql : string) :
  validate sql "security"
  = TSQLValidator.security_to_py (TSQLValidator.validate_security sql).
Proof. reflexivity. Qed.

Lemma validate_performance_registered (sql : string) :
  validate sql "performance"
  = PyList (map TSQLValidator.issue_to_py
                (TSQLValidator.check_performance_patterns sql)).
Proof. reflexivity. Qed.


(** The performance result has no part in [is_valid], nor in the three
    flags. *)
Lemma format_validation_response_performance (sql : string) (r : results)
      (performance : pyval) :
  let r' := mk_results (r_syntax r) (r_business r) (r_security r)
                       performance (r_execution r) in
  field "is_valid" (_format_validation_response sql r')
  = field "is_valid" (_format_validation_response sql r).
Proof. reflexivity. Qed.


(** The two flags that come from the T-SQL validator are Booleans. *)
Lemma syntax_and_security_flags (self : t) (sql : string)
      (business_context : list (string * pyval)) :
  let response :=
    fst (_execute_parallel_validation self sql business_context) in
  validation_field "syntax_valid" response
  = PyBool (TSQLValidator.syn_valid
              (TSQLValidator.validate_syntax sqlparse_parse sql))
  /\ validation_field "security_valid" response
     = PyBool (TSQLValidator.sec_valid
                 (TSQLValidator.validate_security sql)).
Proof. split; reflexivity. Qed.

(** C10: on the parallel-validation path the result of the performance
    pass is a list, and the [validation] block of the response has
    [performance_issues] equal to the empty list, whatever the query and
    the business context. *)
Theorem performance_issues_always_empty (self : t) (sql : string)
        (business_context : list (string * pyval)) :
  r_performance (run_validators sql business_context)
  = PyList (map TSQLValidator.issue_to_py
                (TSQLValidator.check_performance_patterns sql))
  /\ validation_field "performance_issues"
       (fst (_execute_parallel_validation self sql business_context))
     = PyList [].
Proof. split; reflexivity. Qed.

(** A dict-shaped performance result would have its issues reported. *)
Lemma performance_issues_of_dict (sql : string) (r : results)
      (issues : pyval) :
  r_performance r = PyDict [("issues", issues)] ->
  validation_field "performance_issues" (_format_validation_response sql r)
  = issues.
Proof.
  intros E. unfold validation_field, field, _format_validation_response,
              validation_block, get.
  cbn [lookup String.eqb Ascii.eqb Bool.eqb]. rewrite E. reflexivity.
Qed.

(** The issues found by the performance pass do not reach the response. *)
Example performance_issues_dropped :
  TSQLValidator.check_performance_patterns "SELECT * FROM customers" <> []
  /\ forall self bc,
      validation_field "performance_issues"
        (fst (_execute_parallel_validation self "SELECT * FROM customers" bc))
      = PyList [].
Proof. split; [discriminate | reflexivity]. Qed.

(** What the first of two calls leaves in the cache, and what the second
    one makes of it: the raw task results become the [validation] block,
    and [is_valid] is read from their missing key [syntax_valid]. *)
Lemma second_call_response (self : t) (sql : string)
      (business_context : list (string * pyval)) :
  sql <> "" ->
  CachingMixin._cache_size self = 50%Z ->
  CachingMixin._get_cached_result self (cache_key_of sql business_context)
  = None ->
  let call1 := validate_sql self sql business_context in
  let call2 := validate_sql (snd call1) sql business_context in
  fst call1
  = _format_validation_response sql (run_validators sql business_context)
  /\ fst call2
     = _format_response_with_cache sql
         (results_entries (run_validators sql business_context))
  /\ snd call2 = snd call1
  /\ field "is_valid" (fst call2) = PyBool false.
Proof.
  intros Hsql Hsize Hmiss call1 call2.
  apply String.eqb_neq in Hsql.
  assert (E1 : call1 = _execute_parallel_validation self sql business_context).
  { subst call1. unfold NL2SQLAgent.validate_sql, generate_sql_optimized.
    rewrite Hsql.
    change (NL2SQLAgent.cache_key_of md5_hexdigest context_hash sql
                                     business_context)
      with (cache_key_of sql business_context).
    now rewrite Hmiss. }
  assert (Hhit : CachingMixin._get_cached_result (snd call1)
                   (cache_key_of sql business_context)
                 = Some (results_entries
                           (run_validators sql business_context))).
  { rewrite E1. unfold NL2SQLAgent._execute_parallel_validation.
    cbn [snd]. unfold CachingMixin._get_cached_result,
                 CachingMixin._cache_result.
    cbn [CachingMixin._cache]. rewrite Hsize.
    apply lookup_cache_result_fresh; [lia | exact Hmiss]. }
  assert (E2 : call2
               = (_format_response_with_cache sql
                    (results_entries (run_validators sql business_context)),
                  snd call1)).
  { subst call2. unfold NL2SQLAgent.validate_sql, generate_sql_optimized.
    rewrite Hsql.
    change (NL2SQLAgent.cache_key_of md5_hexdigest context_hash sql
                                     business_context)
      with (cache_key_of sql business_context).
    rewrite Hhit. reflexivity. }
  rewrite E2, E1. repeat split; reflexivity.
Qed.

(** C5 (amended): when the first of two calls with the same query and
    business context is not itself served from the cache, the second one
    is: it leaves the agent's state as it is, and its response has
    [success] true, the same [generated_sql] and the mark [cached], a key
    that the first response does not have; so the two responses differ. *)
Theorem second_call_is_cached_and_marked (self : t) (sql : string)
        (business_context : list (string * pyval)) :
  sql <> "" ->
  CachingMixin._cache_size self = 50%Z ->
  CachingMixin._get_cached_result self (cache_key_of sql business_context)
  = None ->
  let call1 := validate_sql self sql business_context in
  let call2 := validate_sql (snd call1) sql business_context in
  snd call2 = snd call1
  /\ field "success" (fst call2) = PyBool true
  /\ field "generated_sql" (fst call2) = PyStr sql
  /\ field "generated_sql" (fst call1) = PyStr sql
  /\ lookup "cached" (fst call2) = Some (PyBool true)
  /\ lookup "cached" (fst call1) = None
  /\ fst call1 <> fst call2.
Proof.
  intros Hsql Hsize Hmiss call1 call2.
  destruct (second_call_response self business_context Hsql Hsize Hmiss)
    as (E1 & E2 & E3 & _).
  fold call1 in E1, E2, E3. fold call2 in E2, E3.
  rewrite E1, E2. repeat split; try reflexivity; try exact E3.
  intros H. discriminate H.
Qed.
End WithCollaborators.

(** C5 (counterexample): with a parser that returns the query as one
    statement, a business validator and a database that accept it, two
    calls on [SELECT * FROM customers] with the empty business context
    from the initial state return different responses: the first is valid,
    the second is marked [cached] and is not valid. *)
Lemma validate_sql_twice_differs :
  let validate_sql :=
    validate_sql (fun q => inr [q])
                 (fun _ _ => inr (PyDict [("valid", PyBool true)]))
                 (fun _ _ => PyDict [("success", PyBool true)])
                 (fun s => s) (fun _ => "0") in
  let call1 := validate_sql init "SELECT * FROM customers" [] in
  let call2 := validate_sql (snd call1) "SELECT * FROM customers" [] in
  field "is_valid" (fst call1) = PyBool true
  /\ field "is_valid" (fst call2) = PyBool false
  /\ field "cached" (fst call1) = PyNone
  /\ field "cached" (fst call2) = PyBool true
  /\ fst call1 <> fst call2.
Proof.
  vm_compute. repeat split; try reflexivity. intros H. discriminate H.
Qed.

Lemma second_call_is_cached_and_marked_witness :
  let validate_sql :=
    validate_sql (fun q => inr [q])
                 (fun _ _ => inr (PyDict [("valid", PyBool true)]))
                 (fun _ _ => PyDict [("success", PyBool true)])
                 (fun s => s) (fun _ => "0") in
  let call1 := validate_sql init "SELECT 1" [] in
  let call2 := validate_sql (snd call1) "SELECT 1" [] in
  "SELECT 1" <> ""
  /\ snd call2 = snd call1
  /\ lookup "cached" (fst call2) = Some (PyBool true).
Proof.
  intros validate_sql call1 call2.
  split; [discriminate|].
  pose proof (@second_call_is_cached_and_marked
                (fun q => inr [q])
                (fun _ _ => inr (PyDict [("valid", PyBool true)]))
                (fun _ _ => PyDict [("success", PyBool true)])
                (fun s => s) (fun _ => "0")
                init "SELECT 1" []) as H.
  destruct H as (H1 & _ & _ & _ & H5 & _);
    [discriminate | reflexivity | reflexivity |].
  split; [exact H1 | exact H5].
Defined.
End NL2SQLAgentFacts.

(** ** The join validator and the business context *)

Module BusinessContextFacts.
Import PyStr PyStrFacts PySeq Concepts BusinessContextAgent.
Local Open Scope string_scope.

Lemma In_add_parts (parts : list string) (acc : list string) (e : string) :
  In e (fold_left add_part parts acc)
  <-> In e acc
      \/ exists part, In part parts /\ contains "." part = true
                      /\ e = strip (hd "" (split "." part)).
Proof.
  revert acc. induction parts as [|p l IH]; intros acc; cbn [fold_left].
  - split; [now left | intros [H|(p & [] & _)]; exact H].
  - rewrite IH. unfold add_part. split.
    + intros [H|(p' & Hp' & Hc & He)].
      * destruct (contains "." p) eqn:E.
        -- apply In_set_add in H. destruct H as [->|H]; [|now left].
           right. exists p. repeat split; [now left | exact E].
        -- now left.
      * right. exists p'. repeat split; [now right | exact Hc | exact He].
    + intros [H|(p' & [<-|Hp'] & Hc & He)].
      * left. destruct (contains "." p); [|exact H].
        apply In_set_add. now right.
      * left. rewrite Hc. apply In_set_add. now left.
      * right. exists p'. repeat split; assumption.
Qed.

Lemma In_add_joins (joins : list string) (acc : list string) (e : string) :
  In e (fold_left add_join joins acc)
  <-> In e acc
      \/ exists join part,
           In join joins /\ contains "=" (lower join) = true
           /\ In part (split "=" (lower join))
           /\ contains "." part = true /\ e = strip (hd "" (split "." part)).
Proof.
  revert acc. induction joins as [|j l IH]; intros acc; cbn [fold_left].
  - split; [now left | intros [H|(j & p & [] & _)]; exact H].
  - rewrite IH. unfold add_join. split.
    + intros [H|(j' & p & Hj' & H)].
      * destruct (contains "=" (lower j)) eqn:E; [|now left].
        apply In_add_parts in H. destruct H as [H|(p & Hp & Hc & He)];
          [now left|].
        right. exists j, p. repeat split; try assumption. now left.
      * right. exists j', p. split; [now right | exact H].
    + intros [H|(j' & p & [<-|Hj'] & Hc & Hp & Hd & He)].
      * left. destruct (contains "=" (lower j)); [|exact H].
        apply In_add_parts. now left.
      * left. rewrite Hc. apply In_add_parts. right. exists p.
        repeat split; assumption.
      * right. exists j', p. repeat split; assumption.
Qed.

(** The loop that classifies the joins puts all of them on one side. *)
Lemma classify_joins (available required joins : list string)
      (sat unsat : list string) :
  fold_left (classify_join available required) joins (sat, unsat)
  = if forallb (fun entity => mem entity available) required
    then ((sat ++ joins)%list, unsat)
    else (sat, (unsat ++ joins)%list).
Proof.
  revert sat unsat. induction joins as [|j l IH]; intros sat unsat.
  - cbn [fold_left]. rewrite !app_nil_r. now destruct (forallb _ _).
  - cbn [fold_left]. rewrite (surjective_pairing (classify_join _ _ _ j)).
    rewrite IH. unfold classify_join. cbn [fst snd].
    destruct (forallb _ required); cbn [fst snd];
      now rewrite <- ?app_assoc.
Qed.

Lemma missing_nil_iff (available required : list string) :
  match filter (fun e => negb (mem e available)) required with
  | [] => true
  | _ => false
  end
  = forallb (fun entity => mem entity available) required.
Proof.
  induction required as [|e l IH]; [reflexivity|].
  cbn [filter forallb]. destruct (mem e available); cbn [negb andb].
  - exact IH.
  - reflexivity.
Qed.

(** C4: the required entities are the stripped, lower-cased qualifiers in
    front of the first [.] of the [=]-separated sides of the join strings;
    [valid] says that each of them is an available entity;
    [missing_entities] lists those that are not; and the join strings are
    all satisfied when [valid] is true and all unsatisfied otherwise.  The
    two examples of the specification evaluate as it says. *)
Theorem validate_required_joins_spec (entities joins : list string) :
  let r := _validate_required_joins entities joins in
  let required := required_entities_of joins in
  (forall e,
      In e required
      <-> exists join part,
            In join joins /\ contains "=" (lower join) = true
            /\ In part (split "=" (lower join))
            /\ contains "." part = true
            /\ e = strip (hd "" (split "." part)))
  /\ (valid r = true <-> forall e, In e required -> In e entities)
  /\ (forall e, In e (missing_entities r)
                <-> In e required /\ ~ In e entities)
  /\ satisfied_joins r = (if valid r then joins else [])
  /\ unsatisfied_joins r = (if valid r then [] else joins)
  /\ _validate_required_joins ["a"; "b"] ["a.id=b.a_id"]
     = mk_join_validation true [] ["a.id=b.a_id"] []
  /\ _validate_required_joins ["a"] ["a.id=b.a_id"]
     = mk_join_validation false ["b"] [] ["a.id=b.a_id"].
Proof.
  intros r required.
  assert (Hr : r = mk_join_validation
                     (forallb (fun e => mem e (dedup entities)) required)
                     (filter (fun e => negb (mem e (dedup entities)))
                             required)
                     (if forallb (fun e => mem e (dedup entities)) required
                      then joins else [])
                     (if forallb (fun e => mem e (dedup entities)) required
                      then [] else joins)).
  { subst r. unfold _validate_required_joins. fold required.
    rewrite classify_joins, missing_nil_iff.
    now destruct (forallb _ required). }
  split; [|split; [|split; [|split; [|split; [|split]]]]].
  - intros e. subst required. unfold required_entities_of.
    rewrite In_add_joins. split.
    + intros [[]|H]. exact H.
    + intros H. now right.
  - rewrite Hr. cbn [valid]. rewrite forallb_forall. split.
    + intros H e He. apply In_dedup. apply mem_In. now apply H.
    + intros H e He. apply mem_In. apply In_dedup. now apply H.
  - intros e. rewrite Hr. cbn [missing_entities]. rewrite filter_In.
    rewrite negb_true_iff, mem_false, In_dedup. tauto.
  - rewrite Hr. reflexivity.
  - rewrite Hr. reflexivity.
  - reflexivity.
  - reflexivity.
Qed.

(** C8 (counterexample): with no concept loaded, the non-empty entity list
    [customers] gets the empty context, whose [total_entities] is 0 and
    not 1. *)
Lemma coverage_without_concepts :
  let r := gather_business_context [] (fun _ _ => 1%Q) "total balance"
                                   ["customers"] in
  total_entities (coverage r) = 0%nat
  /\ total_entities (coverage r) <> List.length ["customers"].
Proof. split; [reflexivity | discriminate]. Qed.

(** C8 (amended): for a non-empty list of applicable entities,
    [total_entities] is the number of applicable entities as soon as one
    loaded concept targets one of them; when none does, the empty context
    is returned, with both counts 0. *)
Theorem entity_coverage_total (concepts_cache : list BusinessConcept)
        (similarity : string -> string -> Q) (user_query : string)
        (applicable_entities : list string) :
  applicable_entities <> [] ->
  let r := gather_business_context concepts_cache similarity user_query
                                   applicable_entities in
  match get_concepts_for_entities concepts_cache applicable_entities with
  | [] => r = _empty_business_context /\ coverage r = mk_coverage 0 0
  | _ :: _ =>
      total_entities (coverage r) = List.length applicable_entities
  end.
Proof.
  intros Hne r. subst r. unfold gather_business_context.
  destruct applicable_entities as [|e l]; [congruence|].
  destruct (get_concepts_for_entities concepts_cache (e :: l));
    [split|]; reflexivity.
Qed.

Lemma entity_coverage_total_witness :
  ["customers"; "accounts"] <> []
  /\ total_entities
       (coverage
          (gather_business_context
             [mk_concept "clv" "customer value" ["customers"; "accounts"]
                         "calculate" ["customers.id=accounts.customer_id"] []]
             (fun _ _ => 1%Q) "total balance" ["customers"; "accounts"]))
     = 2%nat.
Proof.
  split; [discriminate|].
  apply (@entity_coverage_total
           [mk_concept "clv" "customer value" ["customers"; "accounts"]
                       "calculate" ["customers.id=accounts.customer_id"] []]
           (fun _ _ => 1%Q) "total balance" ["customers"; "accounts"]).
  discriminate.
Defined.

(** [entities_with_concepts] counts the distinct names of the matched
    concepts, not the entities they belong to. *)
Lemma entities_with_concepts_counts_names
      (concepts_cache : list BusinessConcept)
      (similarity : string -> string -> Q) (user_query : string)
      (applicable_entities : list string) :
  applicable_entities <> [] ->
  get_concepts_for_entities concepts_cache applicable_entities <> [] ->
  entities_with_concepts
    (coverage (gather_business_context concepts_cache similarity user_query
                                       applicable_entities))
  = List.length
      (dedup (map (fun cs => name (fst cs))
                  (match_concepts_to_query similarity user_query
                     (get_concepts_for_entities concepts_cache
                                                applicable_entities)
                     0.5%Q))).
Proof.
  intros Hne Hc. unfold gather_business_context.
  destruct applicable_entities as [|e l]; [congruence|].
  destruct (get_concepts_for_entities concepts_cache (e :: l));
    [congruence | reflexivity].
Qed.

Example entities_with_concepts_one_concept_two_entities :
  let concepts :=
    [mk_concept "clv" "customer value" ["customers"; "accounts"]
                "calculate" ["customers.id=accounts.customer_id"] []] in
  let r := gather_business_context concepts (fun _ _ => 1%Q) "total balance"
                                   ["customers"; "accounts"] in
  entities_with_concepts (coverage r) = 1%nat
  /\ List.length
       (concept_owning_entities
          ["customers"; "accounts"]
          (match_concepts_to_query (fun _ _ => 1%Q) "total balance"
                                   concepts 0.5%Q))
     = 2%nat.
Proof. split; reflexivity. Qed.
End BusinessContextFacts.

(** ** Sorting, slicing and rounding *)

Module PySeqFacts.
Import PySeq.
Local Open Scope Q_scope.

Section Slice.
Variable A : Type.








End Slice.

Section Sort.
Variable A : Type.
Variable key : A -> Q.

(** Decreasing order of the keys. *)
Local Abbreviation desc := (fun a b : A => key b <= key a).

Lemma In_insert_desc (x y : A) (l : list A) :
  In y (insert_desc key x l) <-> y = x \/ In y l.
Proof.
  induction l as [|z l IH]; cbn [insert_desc].
  - simpl. intuition.
  - destruct (Qle_bool (key z) (key x)); simpl in *; [intuition|].
    rewrite IH. intuition.
Qed.

Lemma In_sort_desc (y : A) (l : list A) :
  In y (sort_desc key l) <-> In y l.
Proof.
  induction l as [|x l IH]; [reflexivity|].
  unfold sort_desc in *. cbn [fold_right]. rewrite In_insert_desc, IH.
  simpl. intuition.
Qed.

Lemma insert_desc_sorted (x : A) (l : list A) :
  StronglySorted desc l -> StronglySorted desc (insert_desc key x l).
Proof.
  induction 1 as [|z l Hl IH Hz]; cbn [insert_desc].
  - repeat constructor.
  - destruct (Qle_bool (key z) (key x)) eqn:E.
    + apply Qle_bool_iff in E. constructor; [now constructor|].
      constructor; [exact E|].
      rewrite Forall_forall in *. intros y Hy.
      apply Qle_trans with (key z); [now apply Hz | exact E].
    + constructor; [exact IH|].
      rewrite Forall_forall in *. intros y Hy.
      apply In_insert_desc in Hy. destruct Hy as [->|Hy]; [|now apply Hz].
      apply Qlt_le_weak. apply Qnot_le_lt. intros H.
      apply Qle_bool_iff in H. congruence.
Qed.

(** [sort_desc] returns its argument in decreasing order of the keys. *)
Lemma sort_desc_sorted (l : list A) : StronglySorted desc (sort_desc key l).
Proof.
  induction l as [|x l IH]; [constructor|].
  unfold sort_desc in *. cbn [fold_right]. now apply insert_desc_sorted.
Qed.

Lemma Forall_sort_desc (P : A -> Prop) (l : list A) :
  Forall P l -> Forall P (sort_desc key l).
Proof.
  rewrite !Forall_forall. intros H y Hy. apply H. now apply In_sort_desc.
Qed.
End Sort.


End PySeqFacts.

Module PyFloatFacts.
Import PyFloat.
Local Open Scope Q_scope.



End PyFloatFacts.

(** ** Entity recognition *)

Module EntityRecognitionFacts.
Import PyStr PySeq PyFloat PySeqFacts PyFloatFacts EntityRecognitionAgent.
Local Open Scope string_scope.
Local Open Scope Q_scope.

(** An entity of the ranking path comes from one of the tables found by
    the search: it carries its three factors, the first of which is the
    search score of the table, and its score is their weighted sum, rounded
    to three decimals. *)
Local Abbreviation scored tables :=
  (fun e : entity =>
     exists tr f,
       In tr tables
       /\ factors e = Some f
       /\ semantic_similarity f
          = match result_score tr with Some s => s | None => 0 end
       /\ relevance_score e = round3 (overall_relevance f)).

Local Abbreviation above_threshold :=
  (fun e : entity => 0.3 < relevance_score e).

Local Abbreviation by_score_desc :=
  (fun a b : entity => relevance_score b <= relevance_score a).








Section WithCollaborators.
Variable md5_hexdigest : string -> string.
Variable search_documentation : string -> string + list table_result.
Variable random_uniform : nat -> Q.
Variable format_2f : Q -> string.


End WithCollaborators.



(** When the direct pattern pass ends the call, its entities are returned
    as they are: here six of them for [max_entities = 1]. *)
Example direct_path_ignores_max_entities :
  let r :=
    fst (recognize_entities_optimized
           (fun s => s) (fun _ => inr []) (fun _ => 0) (fun _ => "") init
           "customer account" None 1) in
  success r = true
  /\ List.length (applicable_entities r) = 6%nat
  /\ confidence r == 0.6.
Proof. repeat split; reflexivity. Qed.
End EntityRecognitionFacts.

(** ** More on the T-SQL validator *)

Module TSQLValidatorMore.
Import PyStr PyStrFacts TSQLValidator.
Local Open Scope string_scope.

Lemma validate_statement_errors (s : string) :
  syn_valid (_validate_statement s) = true
  <-> syn_errors (_validate_statement s) = [].
Proof.
  unfold _validate_statement.
  destruct (String.eqb (strip s) ""); cbn [syn_valid syn_errors].
  - split; discriminate.
  - destruct (negb (existsb _ _)); destruct (negb (Nat.eqb _ _));
      cbn; split; congruence.
Qed.

Lemma validate_statements_errors (statements : list string)
      (acc : syntax_result) :
  (syn_valid acc = true <-> syn_errors acc = []) ->
  (syn_valid (validate_statements statements acc) = true
   <-> syn_errors (validate_statements statements acc) = []).
Proof.
  revert acc. induction statements as [|s l IH]; intros acc H; [exact H|].
  cbn [validate_statements]. apply IH.
  pose proof (validate_statement_errors s) as Hs.
  destruct (syn_valid (_validate_statement s)) eqn:E; cbn [negb].
  - destruct (syn_warnings (_validate_statement s)); cbn [syn_valid syn_errors];
      exact H.
  - assert (Hne : syn_errors (_validate_statement s) <> [])
      by (intros C; apply Hs in C; discriminate).
    destruct (syn_warnings (_validate_statement s));
      cbn [syn_valid syn_errors]; split; try discriminate;
      intros C; apply app_eq_nil in C; tauto.
Qed.

(** X1: whatever the parser returns, the result of [validate_syntax] is
    valid exactly when its list of errors is empty. *)
Theorem validate_syntax_valid_iff_no_errors
        (sqlparse_parse : string -> string + list string) (query : string) :
  syn_valid (validate_syntax sqlparse_parse query) = true
  <-> syn_errors (validate_syntax sqlparse_parse query) = [].
Proof.
  unfold validate_syntax. destruct (sqlparse_parse query) as [e|[|s l]].
  - cbn. split; discriminate.
  - cbn. split; discriminate.
  - apply validate_statements_errors. cbn. tauto.
Qed.



Lemma to_lower_to_upper (c : ascii) : to_lower (to_upper c) = to_lower c.
Proof. destruct c as [[] [] [] [] [] [] [] []]; reflexivity. Qed.



Lemma lower_upper (s : string) : lower (upper s) = lower s.
Proof.
  induction s as [|c s IH]; [reflexivity|].
  unfold upper, lower in *. cbn [smap]. now rewrite to_lower_to_upper, IH.
Qed.

End TSQLValidatorMore.

(** ** More on the bounded caches *)

Module BoundedCacheMore.
Import BoundedCache BoundedCacheFacts CacheLookupFacts.

Section Dict.
Variable V : Type.
Implicit Types (d : list (string * V)) (k : string) (v : V).

Lemma lookup_set_same d k v : Py.lookup k (Py.set k v d) = Some v.
Proof.
  induction d as [|[k' v'] d IH]; simpl.
  - now rewrite String.eqb_refl.
  - destruct (String.eqb k k') eqn:E; simpl; rewrite E; [reflexivity|exact IH].
Qed.

Lemma lookup_set_other d k k' v :
  k' <> k -> Py.lookup k' (Py.set k v d) = Py.lookup k' d.
Proof.
  intros Hne. induction d as [|[k0 v0] d IH]; simpl.
  - apply String.eqb_neq in Hne. now rewrite Hne.
  - destruct (String.eqb k k0) eqn:E; simpl.
    + apply String.eqb_eq in E. subst k0.
      apply String.eqb_neq in Hne. now rewrite Hne.
    + destruct (String.eqb k' k0); [reflexivity | exact IH].
Qed.

Lemma lookup_In_keys d k v : Py.lookup k d = Some v -> In k (Py.keys d).
Proof.
  intros H. destruct (in_dec string_dec k (Py.keys d)) as [Hi|Hn];
    [exact Hi|].
  apply lookup_None in Hn. congruence.
Qed.

Lemma NoDup_app_disjoint (A : Type) (l1 l2 : list A) (a : A) :
  NoDup (l1 ++ l2) -> In a l1 -> In a l2 -> False.
Proof.
  induction l1 as [|x l1 IH]; intros Hn H1 H2; [destruct H1|].
  cbn in Hn. inversion Hn as [|? ? Hx Hn']; subst.
  destruct H1 as [->|H1].
  - apply Hx. apply in_or_app. now right.
  - now apply IH.
Qed.

(** In a dict, what is found among the later entries is what the whole
    dict holds under that key. *)
Lemma lookup_skipn_Some (n : nat) d k v :
  wf d -> Py.lookup k (skipn n d) = Some v -> Py.lookup k d = Some v.
Proof.
  intros Hwf H. rewrite <- (firstn_skipn n d) in Hwf |- *.
  rewrite lookup_app.
  destruct (Py.lookup k (firstn n d)) as [w|] eqn:E.
  - exfalso. apply lookup_In_keys in E. apply lookup_In_keys in H.
    unfold wf, Py.keys in Hwf. rewrite map_app in Hwf.
    exact (@NoDup_app_disjoint _ _ _ k Hwf E H).
  - exact H.
Qed.

Lemma lookup_cache_result_Some (limit : Z) d k k' v w :
  wf d ->
  Py.lookup k' (cache_result limit d k v) = Some w ->
  Py.lookup k' (Py.set k v d) = Some w.
Proof.
  intros Hwf. rewrite cache_result_eq.
  destruct (_ <? _)%Z; [|tauto].
  apply lookup_skipn_Some. now apply wf_set.
Qed.

Lemma wf_nil : wf (@nil (string * V)).
Proof. constructor. Qed.

Lemma run_snoc (limit : Z) d (l : list (string * V)) k v :
  run limit d (l ++ [(k, v)]) = cache_result limit (run limit d l) k v.
Proof. unfold run. now rewrite fold_left_app. Qed.

(** The cache after a sequence of insertions holds, under a key, nothing
    but the result of the last insertion under that key. *)
Lemma run_lookup_last (limit : Z) (inserts : list (string * V)) k v :
  Py.lookup k (run limit [] inserts) = Some v ->
  exists before after,
    inserts = before ++ (k, v) :: after /\ ~ In k (map fst after).
Proof.
  induction inserts as [|[k0 v0] l IH] using rev_ind; [discriminate|].
  rewrite run_snoc. intros H.
  apply lookup_cache_result_Some in H; [|apply run_wf, wf_nil].
  destruct (string_dec k k0) as [->|Hne].
  - rewrite lookup_set_same in H. injection H as <-.
    exists l, []. split; [reflexivity | intros []].
  - rewrite lookup_set_other in H by exact Hne.
    destruct (IH H) as (b & a & -> & Hn).
    exists b, (a ++ [(k0, v0)]). split.
    + now rewrite <- app_assoc.
    + rewrite map_app, in_app_iff. cbn. intuition.
Qed.

(** Storing a result and asking for it again. *)
Lemma cache_result_lookup (limit : Z) d k v :
  (10 <= limit)%Z ->
  (Z.of_nat (List.length d) <= limit)%Z ->
  Py.lookup k (cache_result limit d k v) = Some v.
Proof.
  intros Hl Hd.
  destruct (in_dec string_dec k (Py.keys d)) as [Hin|Hni].
  - rewrite cache_result_eq, (@length_set_in V d k v Hin).
    apply Z.ltb_ge in Hd. rewrite Hd. apply lookup_set_same.
  - apply lookup_cache_result_fresh; [exact Hl | now apply lookup_None].
Qed.
End Dict.

(** X3: with a limit of at least ten, a result cached by [CachingMixin]
    is returned by the next lookup of its key, after any sequence of
    earlier insertions. *)
Theorem cache_result_then_get (V : Type) (cache_size : Z)
        (inserts : list (string * V)) (cache_key : string) (result : V) :
  (10 <= cache_size)%Z ->
  let self :=
    fold_left (fun s kv => CachingMixin._cache_result s (fst kv) (snd kv))
              inserts (CachingMixin.init V cache_size) in
  CachingMixin._get_cached_result
    (CachingMixin._cache_result self cache_key result) cache_key
  = Some result.
Proof.
  intros H self. subst self. unfold CachingMixin.init.
  rewrite caching_mixin_run.
  unfold CachingMixin._get_cached_result, CachingMixin._cache_result.
  cbn [CachingMixin._cache CachingMixin._cache_size].
  apply cache_result_lookup; [exact H|].
  apply run_bounded; simpl; lia.
Qed.

Lemma cache_result_then_get_witness :
  (10 <= 50)%Z
  /\ CachingMixin._get_cached_result
       (CachingMixin._cache_result
          (fold_left
             (fun s kv => CachingMixin._cache_result s (fst kv) (snd kv))
             [("a"%string, 1%nat); ("b"%string, 2%nat)]
             (CachingMixin.init nat 50))
          "a"%string 3%nat) "a"%string
     = Some 3%nat.
Proof.
  split; [lia|].
  apply (@cache_result_then_get nat 50
           [("a"%string, 1%nat); ("b"%string, 2%nat)] "a"%string 3%nat).
  lia.
Defined.

(** X4: with a limit below ten, the insertion that outgrows the limit
    empties the cache: the ten oldest keys are all of them, so the result
    just stored is deleted with the others. *)
Theorem small_cache_overflow_empties (V : Type) (cache_size : Z)
        (inserts : list (string * V)) (cache_key : string) (result : V) :
  (0 <= cache_size < 10)%Z ->
  let self :=
    fold_left (fun s kv => CachingMixin._cache_result s (fst kv) (snd kv))
              inserts (CachingMixin.init V cache_size) in
  (cache_size
   < Z.of_nat (List.length
                 (Py.set cache_key result (CachingMixin._cache self))))%Z ->
  CachingMixin._cache (CachingMixin._cache_result self cache_key result) = []
  /\ CachingMixin._get_cached_result
       (CachingMixin._cache_result self cache_key result) cache_key
     = None.
Proof.
  intros H self. subst self. unfold CachingMixin.init.
  rewrite caching_mixin_run.
  unfold CachingMixin._get_cached_result, CachingMixin._cache_result.
  cbn [CachingMixin._cache CachingMixin._cache_size]. intros Hover.
  assert (Hb : (Z.of_nat (List.length (run cache_size [] inserts))
                <= cache_size)%Z) by (apply run_bounded; simpl; lia).
  pose proof (length_set_le (run cache_size [] inserts) cache_key result).
  rewrite cache_result_eq. apply Z.ltb_lt in Hover as Ho. rewrite Ho.
  assert (E : skipn 10 (Py.set cache_key result
                               (run cache_size [] inserts)) = [])
    by (apply skipn_all2; lia).
  rewrite E. split; reflexivity.
Qed.

Lemma small_cache_overflow_empties_witness :
  (0 <= 1 < 10)%Z
  /\ CachingMixin._get_cached_result
       (CachingMixin._cache_result
          (fold_left
             (fun s kv => CachingMixin._cache_result s (fst kv) (snd kv))
             [("a"%string, 1%nat)] (CachingMixin.init nat 1))
          "b"%string 2%nat) "b"%string
     = None.
Proof.
  split; [lia|].
  apply (@small_cache_overflow_empties nat 1 [("a"%string, 1%nat)]
           "b"%string 2%nat); [lia | vm_compute; reflexivity].
Defined.

(** X5: whatever the limit, a lookup in a [CachingMixin] cache that was
    filled by a sequence of insertions returns nothing but the result of
    the last insertion under that key: an eviction deletes entries, it
    never brings back an older result or one of another key. *)
Theorem cache_returns_last_stored (V : Type) (cache_size : Z)
        (inserts : list (string * V)) (cache_key : string) (result : V) :
  let self :=
    fold_left (fun s kv => CachingMixin._cache_result s (fst kv) (snd kv))
              inserts (CachingMixin.init V cache_size) in
  CachingMixin._get_cached_result self cache_key = Some result ->
  exists before after,
    inserts = before ++ (cache_key, result) :: after
    /\ ~ In cache_key (map fst after).
Proof.
  intros self. subst self. unfold CachingMixin.init.
  rewrite caching_mixin_run. unfold CachingMixin._get_cached_result.
  cbn [CachingMixin._cache]. apply run_lookup_last.
Qed.

Lemma cache_returns_last_stored_witness :
  CachingMixin._get_cached_result
    (fold_left (fun s kv => CachingMixin._cache_result s (fst kv) (snd kv))
               [("a"%string, 1%nat); ("a"%string, 2%nat)]
               (CachingMixin.init nat 50)) "a"%string
  = Some 2%nat
  /\ exists before after,
      [("a"%string, 1%nat); ("a"%string, 2%nat)]
      = before ++ ("a"%string, 2%nat) :: after
      /\ ~ In "a"%string (map fst after).
Proof.
  split; [reflexivity|].
  apply (@cache_returns_last_stored nat 50
           [("a"%string, 1%nat); ("a"%string, 2%nat)] "a"%string 2%nat).
  reflexivity.
Defined.
End BoundedCacheMore.

(** ** More on the validator registry and the SQL-generation agent *)

Module NL2SQLAgentMore.
Import Py PyStr NL2SQLAgent BoundedCache BoundedCacheFacts CacheLookupFacts
       BoundedCacheMore.
Local Open Scope string_scope.


(** The values of the validation cache are dicts of raw task results. *)
Local Abbreviation raw_results_only cache :=
  (Forall (fun kv : string * list (string * pyval) =>
             exists r, snd kv = results_entries r) cache).

Section ForallDict.
Variable V : Type.
Variable P : string * V -> Prop.

Lemma Forall_set (d : list (string * V)) (k : string) (v : V) :
  (forall k', P (k', v)) -> Forall P d -> Forall P (Py.set k v d).
Proof.
  intros Hv. induction 1 as [|[k0 v0] d H0 Hd IH]; cbn.
  - constructor; [apply Hv | constructor].
  - destruct (String.eqb k k0); constructor; auto.
Qed.

Lemma Forall_skipn (n : nat) (d : list (string * V)) :
  Forall P d -> Forall P (skipn n d).
Proof.
  intros H. rewrite <- (firstn_skipn n d) in H.
  now apply Forall_app in H.
Qed.

Lemma Forall_cache_result (limit : Z) (d : list (string * V))
      (k : string) (v : V) :
  (forall k', P (k', v)) -> Forall P d ->
  Forall P (cache_result limit d k v).
Proof.
  intros Hv Hd. rewrite cache_result_eq.
  destruct (_ <? _)%Z; [apply Forall_skipn|]; now apply Forall_set.
Qed.

Lemma Forall_lookup (d : list (string * V)) (k : string) (v : V) :
  Forall P d -> Py.lookup k d = Some v -> P (k, v).
Proof.
  induction 1 as [|[k0 v0] d H0 Hd IH]; cbn; [discriminate|].
  destruct (String.eqb k k0) eqn:E; [|exact IH].
  apply String.eqb_eq in E. subst. intros Hv. injection Hv as <-. exact H0.
Qed.
End ForallDict.

Section WithCollaborators.
Variable sqlparse_parse : string -> string + list string.
Variable validate_against_concepts : string -> pyval -> string + pyval.
Variable _execute_query_impl : string -> Z -> pyval.
Variable md5_hexdigest : string -> string.
Variable context_hash : pyval -> string.

Local Abbreviation generate_sql_optimized :=
  (generate_sql_optimized sqlparse_parse validate_against_concepts
                          _execute_query_impl md5_hexdigest context_hash).

(** One call of the agent, by its arguments. *)
Local Abbreviation call self args :=
  (generate_sql_optimized self (fst (fst args)) (snd (fst args)) (snd args)).

Lemma generate_sql_optimized_cache (self : t)
      (generated_sql : option string) (business_context entity_context : pyval) :
  raw_results_only (CachingMixin._cache self) ->
  raw_results_only
    (CachingMixin._cache
       (snd (generate_sql_optimized self generated_sql business_context
                                    entity_context))).
Proof.
  intros H. unfold NL2SQLAgent.generate_sql_optimized.
  destruct business_context; try exact H.
  destruct entity_context; try exact H.
  destruct generated_sql as [sql|]; [|exact H].
  destruct (String.eqb sql ""); [exact H|].
  destruct (CachingMixin._get_cached_result self _) as [[|e c]|];
    try exact H;
    unfold _execute_parallel_validation; cbn [snd];
    unfold CachingMixin._cache_result; cbn [CachingMixin._cache];
    (apply Forall_cache_result; [|exact H]);
    intros k'; cbn [snd]; eexists; reflexivity.
Qed.

Lemma calls_cache (calls : list (option string * pyval * pyval)) (self : t) :
  raw_results_only (CachingMixin._cache self) ->
  raw_results_only
    (CachingMixin._cache (fold_left (fun s a => snd (call s a)) calls self)).
Proof.
  revert self. induction calls as [|a l IH]; intros self H; [exact H|].
  cbn [fold_left]. apply IH. now apply generate_sql_optimized_cache.
Qed.

(** X7: after any sequence of calls of a new agent, a response that is
    served from the validation cache (it has the key [cached]) has
    [is_valid] false: the cache holds the raw task results, which have no
    key [syntax_valid]. *)
Theorem cached_response_never_valid
        (calls : list (option string * pyval * pyval))
        (generated_sql : option string)
        (business_context entity_context : pyval) :
  let self := fold_left (fun s a => snd (call s a)) calls init in
  let response :=
    fst (generate_sql_optimized self generated_sql business_context
                                entity_context) in
  lookup "cached" response = None
  \/ field "is_valid" response = PyBool false.
Proof.
  intros self response.
  assert (Hinv : raw_results_only (CachingMixin._cache self))
    by (apply calls_cache; constructor).
  subst response. unfold NL2SQLAgent.generate_sql_optimized.
  destruct business_context; try (now left).
  destruct entity_context; try (now left).
  destruct generated_sql as [sql|]; [|now left].
  destruct (String.eqb sql ""); [now left|].
  destruct (CachingMixin._get_cached_result self _) as [[|e c]|] eqn:E;
    try (now left).
  right. unfold CachingMixin._get_cached_result in E.
  destruct (Forall_lookup _ Hinv E) as [r Hr]. cbn [snd] in Hr.
  cbn [fst]. rewrite Hr. reflexivity.
Qed.

(** X8: when one of the two contexts is not a dict, or no SQL text could
    be extracted, or the text is empty, the agent answers with
    [success] false, [is_valid] false and an empty [generated_sql], and
    leaves its cache as it was. *)
Theorem generate_sql_rejects_bad_input (self : t)
        (generated_sql : option string)
        (business_context entity_context : pyval) :
  (forall d, business_context <> PyDict d)
  \/ (forall d, entity_context <> PyDict d)
  \/ generated_sql = None
  \/ generated_sql = Some "" ->
  let out := generate_sql_optimized self generated_sql business_context
                                    entity_context in
  field "success" (fst out) = PyBool false
  /\ field "is_valid" (fst out) = PyBool false
  /\ field "generated_sql" (fst out) = PyStr ""
  /\ snd out = self.
Proof.
  intros H out. subst out. unfold NL2SQLAgent.generate_sql_optimized.
  destruct business_context as [| | | | |bc];
    try (repeat split; reflexivity).
  destruct entity_context as [| | | | |ec];
    try (repeat split; reflexivity).
  destruct H as [H | [H | [-> | ->]]].
  - exfalso. exact (H bc eq_refl).
  - exfalso. exact (H ec eq_refl).
  - repeat split; reflexivity.
  - repeat split; reflexivity.
Qed.
End WithCollaborators.

Lemma generate_sql_rejects_bad_input_witness :
  let out :=
    generate_sql_optimized (fun q => inr [q]) (fun _ _ => inr PyNone)
                           (fun _ _ => PyNone) (fun s => s) (fun _ => "0")
                           init (Some "SELECT 1") (PyList []) (PyDict []) in
  ((forall d, PyList [] <> PyDict d)
   \/ (forall d, PyDict [] <> PyDict d)
   \/ Some "SELECT 1" = None
   \/ Some "SELECT 1" = Some "")
  /\ field "success" (fst out) = PyBool false
  /\ snd out = init.
Proof.
  intros out.
  assert (H : (forall d, PyList [] <> PyDict d)
              \/ (forall d, PyDict [] <> PyDict d)
              \/ Some "SELECT 1" = @None string
              \/ Some "SELECT 1" = Some "")
    by (left; intros d; discriminate).
  split; [exact H|].
  destruct (@generate_sql_rejects_bad_input
              (fun q => inr [q]) (fun _ _ => inr PyNone)
              (fun _ _ => PyNone) (fun s => s) (fun _ => "0")
              init (Some "SELECT 1") (PyList []) (PyDict []) H)
    as (H1 & _ & _ & H4).
  split; [exact H1 | exact H4].
Defined.
End NL2SQLAgentMore.

(** ** The business validator *)

Module BusinessValidatorFacts.
Import Py PyStr PyStrMore Concepts BusinessValidator.
Local Open Scope string_scope.

Lemma check_instruction_shape (query instruction : string) :
  let c := _check_instruction_compliance query instruction in
  warning c = PyNone
  /\ (compliant c = false -> exists msg, issue c = PyStr msg).
Proof.
  unfold _check_instruction_compliance.
  repeat match goal with
         | |- context [if ?b then _ else _] => destruct b
         end; cbn; split; try reflexivity; try discriminate;
    intros _; eexists; reflexivity.
Qed.

(** An instruction that mentions none of [time], [date], [calculate],
    [sum] and [group] is complied with by every query. *)
Theorem instruction_without_trigger_complies (query instruction : string) :
  contains "time" (lower instruction) = false ->
  contains "date" (lower instruction) = false ->
  contains "calculate" (lower instruction) = false ->
  contains "sum" (lower instruction) = false ->
  contains "group" (lower instruction) = false ->
  _check_instruction_compliance query instruction
  = mk_compliance true PyNone PyNone
  /\ validate_business_logic query [instruction] = mk_logic true [] [].
Proof.
  intros H1 H2 H3 H4 H5.
  assert (E : _check_instruction_compliance query instruction
              = mk_compliance true PyNone PyNone).
  { unfold _check_instruction_compliance. rewrite H1, H2, H3, H4, H5.
    reflexivity. }
  split; [exact E|].
  unfold validate_business_logic. cbn [fold_left]. rewrite E. reflexivity.
Qed.

Lemma instruction_without_trigger_complies_witness :
  validate_business_logic "DROP TABLE customers"
                          ["Only active customers count"]
  = mk_logic true [] [].
Proof.
  apply (@instruction_without_trigger_complies
           "DROP TABLE customers" "Only active customers count");
    reflexivity.
Defined.

Lemma validate_business_logic_invariant (query : string)
      (instructions : list string) (acc : logic_result) :
  let P := fun r : logic_result =>
             warnings r = []
             /\ (valid r = true <-> issues r = [])
             /\ Forall (fun i => exists msg, i = PyStr msg) (issues r) in
  P acc ->
  P (fold_left
       (fun acc instruction =>
          let instruction_check :=
            _check_instruction_compliance query instruction in
          if negb (compliant instruction_check)
          then mk_logic false (issues acc ++ [issue instruction_check])%list
                        (warnings acc)
          else if truthy (warning instruction_check)
               then mk_logic (valid acc) (issues acc)
                             (warnings acc ++ [warning instruction_check])%list
               else acc)
       instructions acc).
Proof.
  intros P. revert acc. induction instructions as [|i l IH]; intros acc H;
    [exact H|].
  cbn [fold_left]. apply IH. clear IH.
  destruct (check_instruction_shape query i) as [Hw Hi]. cbv zeta in Hw, Hi.
  destruct H as (H1 & H2 & H3).
  destruct (compliant (_check_instruction_compliance query i)) eqn:E;
    cbn [negb].
  - rewrite Hw. cbn [truthy]. repeat split; tauto.
  - destruct (Hi eq_refl) as [msg Hm]. unfold P. cbn [warnings valid issues].
    split; [exact H1|]. split.
    + split; [discriminate|]. intros C. apply app_eq_nil in C.
      destruct C as [_ C]. discriminate.
    + apply Forall_app. split; [exact H3|].
      constructor; [|constructor]. now exists msg.
Qed.

(** X9: [validate_business_logic] never records a warning; its result is
    valid exactly when it records no issue; and every issue it records
    is a message, never [None]. *)
Theorem validate_business_logic_shape (query : string)
        (business_instructions : list string) :
  let r := validate_business_logic query business_instructions in
  warnings r = []
  /\ (valid r = true <-> issues r = [])
  /\ Forall (fun i => exists msg, i = PyStr msg) (issues r).
Proof.
  apply validate_business_logic_invariant. cbn.
  split; [reflexivity|]. split; [split; reflexivity | constructor].
Qed.

(** X10: a query complies with the privacy check exactly when its
    lower-cased text contains none of the eight sensitive words and no
    [select *]; and then, and only then, there are no issues. *)
Theorem privacy_compliant_iff (query : string) :
  let r := check_data_privacy_compliance query in
  (privacy_compliant r = true
   <-> (forall pattern, In pattern sensitive_patterns ->
                        contains pattern (lower query) = false)
       /\ contains "select *" (lower query) = false)
  /\ (privacy_compliant r = true <-> privacy_issues r = []).
Proof.
  intros r. subst r. unfold check_data_privacy_compliance.
  cbn [privacy_compliant privacy_issues].
  set (hits := filter (fun pattern => contains pattern (lower query))
                      sensitive_patterns).
  assert (Hhits : hits = []
                  <-> forall pattern, In pattern sensitive_patterns ->
                                      contains pattern (lower query) = false).
  { subst hits. split.
    - intros E p Hp. destruct (contains p (lower query)) eqn:C;
        [|reflexivity].
      assert (Hin : In p (filter (fun pattern =>
                                    contains pattern (lower query))
                                 sensitive_patterns))
        by (apply filter_In; split; assumption).
      rewrite E in Hin. destruct Hin.
    - intros H. induction sensitive_patterns as [|p l IH]; [reflexivity|].
      cbn [filter]. rewrite (H p (or_introl eq_refl)). apply IH.
      intros q Hq. apply H. now right. }
  split.
  - destruct hits as [|h t] eqn:E.
    + destruct (contains "select *" (lower query)); cbn; split.
      * discriminate.
      * intros [_ C]. discriminate.
      * intros _. split; [now apply Hhits | reflexivity].
      * reflexivity.
    + cbn. split; [discriminate|]. intros [C _].
      apply Hhits in C. discriminate.
  - destruct (_ ++ _)%list; split; congruence.
Qed.

Section WithParser.
Variable extract_query_joins : string -> string + list string.
Variable str_of_list : list string -> string.

Local Abbreviation _validate_single_concept :=
  (_validate_single_concept extract_query_joins str_of_list).
Local Abbreviation validate_against_concepts :=
  (validate_against_concepts extract_query_joins str_of_list).
Local Abbreviation validate_concept :=
  (validate_concept extract_query_joins str_of_list).

Lemma validate_single_concept_shape (query : string)
      (concept : BusinessConcept) (cv : logic_result) :
  _validate_single_concept query concept = inr cv ->
  (valid cv = true <-> issues cv = []).
Proof.
  unfold BusinessValidator._validate_single_concept. cbv zeta.
  destruct (validate_business_logic_shape query [instructions concept])
    as (Hw & Hv & _). cbv zeta in Hw, Hv. rewrite Hw. cbv iota.
  assert (Hbad : valid (validate_business_logic
                          query [instructions concept]) = false ->
                 forall l, (l ++ issues (validate_business_logic
                                      query [instructions concept]))%list
                           <> [])
    by (intros V l C; apply app_eq_nil in C; destruct C as [_ C];
        apply Hv in C; congruence).
  destruct (required_joins concept) as [|j js];
    [|destruct (check_required_joins _ _ _) as [e|jv];
      [discriminate | destruct (joins_valid jv); cbn [negb]]];
    destruct (String.eqb (instructions concept) "");
    try (destruct (valid (validate_business_logic
                            query [instructions concept])) eqn:V;
         cbn [negb]);
    destruct (lookup (name concept) required_patterns);
    intros [= <-]; cbn [valid issues];
    split; try reflexivity; try discriminate;
    intros C; exfalso;
    first [exact (Hbad eq_refl [] C) | discriminate C
          | exact (Hbad eq_refl _ C)].
Qed.

Lemma validate_concept_shape (query : string) (concept : BusinessConcept)
      (r r' : concepts_result) :
  (c_valid r = true <-> c_issues r = []) ->
  validate_concept query (inr r) concept = inr r' ->
  (c_valid r' = true <-> c_issues r' = []).
Proof.
  intros H. unfold BusinessValidator.validate_concept.
  destruct (_validate_single_concept query concept) as [e|cv] eqn:E;
    [discriminate|].
  pose proof (@validate_single_concept_shape query concept cv E) as Hcv.
  destruct (valid cv) eqn:V; cbn [negb];
    destruct (warnings cv); intros [= <-]; cbn [c_valid c_issues];
    try exact H; split; try discriminate; intros C;
    apply app_eq_nil in C; destruct C as [_ C]; apply Hcv in C;
    discriminate.
Qed.

Lemma validate_concepts_inl (query : string) (concepts : list BusinessConcept)
      (e : string) :
  fold_left (validate_concept query) concepts (inl e) = inl e.
Proof. induction concepts as [|c l IH]; [reflexivity | exact IH]. Qed.

(** X11: when [validate_against_concepts] raises nothing, its result is
    valid exactly when its list of issues is empty; in particular an
    empty list of concepts is valid, without issues or warnings. *)
Theorem validate_against_concepts_valid_iff (query : string)
        (applicable_concepts : list BusinessConcept) (r : concepts_result) :
  validate_against_concepts query applicable_concepts = inr r ->
  (c_valid r = true <-> c_issues r = [])
  /\ validate_against_concepts query []
     = inr (mk_concepts_result true [] [] []).
Proof.
  intros H. split; [|reflexivity]. revert H.
  unfold BusinessValidator.validate_against_concepts.
  assert (G : forall l acc,
             (c_valid acc = true <-> c_issues acc = []) ->
             fold_left (validate_concept query) l (inr acc) = inr r ->
             (c_valid r = true <-> c_issues r = [])).
  { induction l as [|c l IH]; intros acc Ha.
    - cbn. intros [= <-]. exact Ha.
    - cbn [fold_left].
      destruct (validate_concept query (inr acc) c) as [e|r1] eqn:E.
      + rewrite validate_concepts_inl. discriminate.
      + apply IH. exact (@validate_concept_shape query c acc r1 Ha E). }
  apply G. cbn. tauto.
Qed.

(** X12: when the join conditions of the query cannot be extracted (the
    parser raises, or returns no statement), one concept with required
    joins is enough for the whole validation to end in the exception
    handler: the result is invalid and carries the error ['issues'], with
    empty lists of issues and warnings, whatever the other concepts. *)
Theorem failed_join_extraction_fails_validation (query error : string)
        (applicable_concepts : list BusinessConcept)
        (concept : BusinessConcept) :
  extract_query_joins query = inl error ->
  In concept applicable_concepts ->
  required_joins concept <> [] ->
  validate_against_concepts query applicable_concepts = inl "'issues'".
Proof.
  intros Hx Hin Hj. unfold BusinessValidator.validate_against_concepts.
  assert (Hc : _validate_single_concept query concept
               = inl "'missing_joins'").
  { unfold BusinessValidator._validate_single_concept, check_required_joins.
    rewrite Hx. destruct (required_joins concept); [congruence|reflexivity]. }
  assert (G : forall l acc,
             In concept l ->
             fold_left (validate_concept query) l acc = inl "'issues'"
             \/ exists e, acc = inl e /\ e <> "'issues'").
  { induction l as [|c l IH]; intros acc Hl; [destruct Hl|].
    cbn [fold_left]. destruct acc as [e|r].
    - cbn [BusinessValidator.validate_concept].
      rewrite validate_concepts_inl.
      destruct (string_dec e "'issues'") as [->|Hne]; [now left|].
      right. now exists e.
    - left. destruct Hl as [->|Hl].
      + unfold BusinessValidator.validate_concept at 2. rewrite Hc.
        apply validate_concepts_inl.
      + destruct (validate_concept query (inr r) c) as [e|r1] eqn:E.
        * unfold BusinessValidator.validate_concept in E.
          destruct (_validate_single_concept query c) as [e'|cv];
            [injection E as <-; apply validate_concepts_inl|].
          destruct (valid cv), (warnings cv); discriminate.
        * destruct (IH (inr r1) Hl) as [G|(e & C & _)];
            [exact G | discriminate]. }
  destruct (G applicable_concepts (inr (mk_concepts_result true [] [] []))
              Hin) as [H|(e & C & _)]; [exact H | discriminate].
Qed.
End WithParser.

Lemma validate_against_concepts_valid_iff_witness :
  let concepts :=
    [mk_concept "customer_lifetime_value" "value of a customer"
                ["customers"] "calculate the sum per customer"
                ["customers.id=accounts.customer_id"] []] in
  exists r,
    validate_against_concepts
      (fun _ => inr ["customers.id = accounts.customer_id"])
      (fun _ => "[]") "select count(*) from customers" concepts = inr r
    /\ (c_valid r = true <-> c_issues r = []).
Proof.
  intros concepts. eexists. split; [reflexivity|].
  eapply (@validate_against_concepts_valid_iff
            (fun _ => inr ["customers.id = accounts.customer_id"])
            (fun _ => "[]") "select count(*) from customers" concepts).
  reflexivity.
Defined.

Lemma failed_join_extraction_fails_validation_witness :
  let concept :=
    mk_concept "clv" "value of a customer" ["customers"] ""
               ["customers.id=accounts.customer_id"] [] in
  validate_against_concepts (fun _ => inl "list index out of range")
                            (fun _ => "[]") "" [concept]
  = inl "'issues'".
Proof.
  intros concept.
  apply (@failed_join_extraction_fails_validation
           (fun _ => inl "list index out of range") (fun _ => "[]")
           "" "list index out of range" [concept] concept).
  - reflexivity.
  - now left.
  - discriminate.
Defined.
End BusinessValidatorFacts.

(** ** The business pass inside the SQL-generation agent *)

Module BusinessComplianceFacts.
Import Py PyStr NL2SQLAgent BusinessValidator.
Local Open Scope string_scope.

Section WithCollaborators.
Variable sqlparse_parse : string -> string + list string.
Variable _execute_query_impl : string -> Z -> pyval.
Variable md5_hexdigest : string -> string.
Variable context_hash : pyval -> string.

(** The agent with the business validator, which catches its own
    exceptions, on the matched concepts of the business context. *)
Local Abbreviation _execute_parallel_validation :=
  (_execute_parallel_validation
     sqlparse_parse
     (fun query concepts =>
        inr (validate_against_concepts_plain query concepts))
     _execute_query_impl md5_hexdigest context_hash).

(** X13: the matched concepts of a business context are dicts, as
    [gather_business_context] builds them, not [BusinessConcept] objects.
    As soon as the list is not empty, the business pass ends in its
    exception handler, [business_compliant] is false, and the response of
    the parallel-validation path has [is_valid] false, whatever the SQL. *)
Theorem matched_concepts_make_sql_invalid (self : t) (sql : string)
        (business_context : list (string * pyval))
        (concept : pyval) (others : list pyval) :
  get "matched_concepts" (PyList []) business_context
  = PyList (concept :: others) ->
  let response :=
    fst (_execute_parallel_validation self sql business_context) in
  validation_field "business_compliant" response = PyBool false
  /\ field "is_valid" response = PyBool false.
Proof.
  intros H response. subst response.
  unfold NL2SQLAgent._execute_parallel_validation. cbn [fst].
  assert (Hb : validation_field "business_compliant"
                 (_format_validation_response sql
                    (run_validators
                       sqlparse_parse
                       (fun query concepts =>
                          inr (validate_against_concepts_plain query concepts))
                       _execute_query_impl sql business_context))
               = PyBool false).
  { unfold validation_field, field, _format_validation_response,
      validation_block, run_validators, _check_business_compliance.
    cbn [get lookup String.eqb Ascii.eqb Bool.eqb r_business].
    change (match lookup "matched_concepts" business_context with
            | Some v => v
            | None => PyList []
            end)
      with (get "matched_concepts" (PyList []) business_context).
    rewrite H. reflexivity. }
  split; [exact Hb|].
  revert Hb. unfold validation_field, field, _format_validation_response,
               get, all.
  cbn [lookup String.eqb Ascii.eqb Bool.eqb forallb].
  intros ->. cbn [truthy]. now rewrite andb_false_r.
Qed.

(** X14: with no matched concept (the key is missing, or its list is
    empty) the business pass accepts, and [is_valid] is the conjunction of
    what the syntax pass and the security pass say. *)
Theorem no_matched_concept_validity (self : t) (sql : string)
        (business_context : list (string * pyval)) :
  get "matched_concepts" (PyList []) business_context = PyList [] ->
  let response :=
    fst (_execute_parallel_validation self sql business_context) in
  validation_field "business_compliant" response = PyBool true
  /\ field "is_valid" response
     = PyBool (TSQLValidator.syn_valid
                 (TSQLValidator.validate_syntax sqlparse_parse sql)
               && TSQLValidator.sec_valid
                    (TSQLValidator.validate_security sql)).
Proof.
  intros H response. subst response.
  unfold NL2SQLAgent._execute_parallel_validation. cbn [fst].
  unfold validation_field, field, _format_validation_response,
    validation_block, run_validators, _check_business_compliance, all.
  cbn [get lookup String.eqb Ascii.eqb Bool.eqb r_business r_syntax
       r_security forallb].
  change (match lookup "matched_concepts" business_context with
          | Some v => v
          | None => PyList []
          end)
    with (get "matched_concepts" (PyList []) business_context).
  rewrite H. split; [reflexivity|].
  cbn. now rewrite !andb_true_r.
Qed.
End WithCollaborators.

Lemma matched_concepts_make_sql_invalid_witness :
  let business_context :=
    [("success", PyBool true);
     ("matched_concepts",
      PyList [PyDict [("name", PyStr "customer_lifetime_value");
                      ("required_joins", PyList [])]])] in
  field "is_valid"
    (fst (_execute_parallel_validation
            (fun q => inr [q])
            (fun query concepts =>
               inr (validate_against_concepts_plain query concepts))
            (fun _ _ => PyDict [("success", PyBool true)])
            (fun s => s) (fun _ => "0")
            init "SELECT * FROM customers" business_context))
  = PyBool false.
Proof.
  intros business_context.
  apply (@matched_concepts_make_sql_invalid
           (fun q => inr [q])
           (fun _ _ => PyDict [("success", PyBool true)])
           (fun s => s) (fun _ => "0")
           init "SELECT * FROM customers" business_context
           (PyDict [("name", PyStr "customer_lifetime_value");
                    ("required_joins", PyList [])]) []).
  reflexivity.
Defined.

Lemma no_matched_concept_validity_witness :
  field "is_valid"
    (fst (_execute_parallel_validation
            (fun q => inr [q])
            (fun query concepts =>
               inr (validate_against_concepts_plain query concepts))
            (fun _ _ => PyDict [("success", PyBool true)])
            (fun s => s) (fun _ => "0")
            init "SELECT * FROM customers" [("success", PyBool true)]))
  = PyBool (TSQLValidator.syn_valid
              (TSQLValidator.validate_syntax (fun q => inr [q])
                                             "SELECT * FROM customers")
            && TSQLValidator.sec_valid
                 (TSQLValidator.validate_security "SELECT * FROM customers")).
Proof.
  apply (@no_matched_concept_validity
           (fun q => inr [q])
           (fun _ _ => PyDict [("success", PyBool true)])
           (fun s => s) (fun _ => "0")
           init "SELECT * FROM customers" [("success", PyBool true)]).
  reflexivity.
Defined.
End BusinessComplianceFacts.

(** ** The performance analysis of the query optimizer *)

Module QueryOptimizerAnalysisFacts.
Import PyStr PyStrMore QueryOptimizerAnalysis.
Local Open Scope string_scope.

(** X15: [analyze_performance] never estimates the impact as [medium].
    It says [high] exactly when the lower-cased query contains [select *],
    or contains [from] without [where], and [low] otherwise: without the
    two rules of high priority or impact, at most two suggestions and two
    issues are left. *)
Theorem estimated_impact_high_or_low (query : string) :
  estimated_impact (analyze_performance query)
  = (if contains "select *" (lower query)
        || (contains "from" (lower query)
            && negb (contains "where" (lower query)))
     then "high" else "low")
  /\ estimated_impact (analyze_performance query) <> "medium".
Proof.
  assert (E : estimated_impact (analyze_performance query)
              = (if contains "select *" (lower query)
                    || (contains "from" (lower query)
                        && negb (contains "where" (lower query)))
                 then "high" else "low")).
  { unfold analyze_performance, _get_optimization_suggestions,
      _identify_performance_issues. cbn [estimated_impact].
    destruct (contains "select *" (lower query));
      destruct (contains "from" (lower query)
                && negb (contains "where" (lower query)));
      destruct (2 <? count "join" (lower query))%nat;
      destruct (contains "select" (lower query)
                && contains "(" (lower query));
      destruct (contains "order by" (lower query)
                && negb (contains "limit" (lower query)));
      destruct (3 <? count "select" (lower query))%nat;
      reflexivity. }
  split; [exact E|]. rewrite E.
  destruct (_ || _); discriminate.
Qed.

Lemma split_without_separator (sep s cur : string) :
  contains sep s = false -> split_from sep s cur 0 = [cur ++ s].
Proof.
  revert cur. induction s as [|c s IH]; intros cur H.
  - cbn. assert (E : cur ++ "" = cur).
    { induction cur as [|a cur IHc]; [reflexivity|]. cbn. now rewrite IHc. }
    now rewrite E.
  - cbn [contains] in H.
    destruct (String.prefix sep (String c s)) eqn:P; [discriminate|].
    cbn [split_from]. rewrite P, (IH (cur ++ String c "") H). f_equal.
    clear. induction cur as [|a cur IHc]; [reflexivity|].
    cbn. now rewrite IHc.
Qed.

Lemma replace_absent (old new s : string) :
  contains old s = false -> replace old new s = s.
Proof.
  intros H. unfold replace, split.
  now rewrite (@split_without_separator old s "" H).
Qed.

(** X16: [suggest_query_rewrite] looks for [select *] and [like '%]
    whatever the letter case, but it replaces only the upper-case texts
    [SELECT *] and [LIKE '%]: a query that contains neither of them as
    written is never rewritten; and a rewrite that is returned differs
    from the query. *)
Theorem query_rewrite_is_case_sensitive (query : string) :
  (contains "SELECT *" query = false ->
   contains "LIKE '%" query = false ->
   suggest_query_rewrite query = None)
  /\ (forall rewritten,
         suggest_query_rewrite query = Some rewritten ->
         rewritten <> query).
Proof.
  split.
  - intros H1 H2. unfold suggest_query_rewrite.
    rewrite (@replace_absent "SELECT *" _ query H1).
    destruct (contains "select *" (lower query));
      rewrite (@replace_absent "LIKE '%" _ query H2);
      destruct (_ && _); now rewrite String.eqb_refl.
  - intros rewritten. unfold suggest_query_rewrite.
    destruct (String.eqb _ query) eqn:E; [discriminate|].
    intros [= <-]. now apply String.eqb_neq.
Qed.
End QueryOptimizerAnalysisFacts.

(** ** More on entity recognition *)

Module EntityRecognitionMore.
Import PyStr PyStrFacts PySeq PyFloat PySeqFacts PyFloatFacts
       EntityRecognitionAgent EntityRecognitionFacts EntityRecommendations
       BoundedCache BoundedCacheFacts CacheLookupFacts.
Local Open Scope string_scope.
Local Open Scope Q_scope.





(** *** The direct pattern pass *)

Local Abbreviation direct_entity_ok :=
  (fun e : entity =>
     0.3 <= relevance_score e /\ relevance_score e <= 0.8
     /\ factors e = None).

Local Abbreviation direct_state_ok :=
  (fun st : list entity * Q * nat =>
     0 <= snd (fst st) /\ Forall direct_entity_ok (fst (fst st))).








Section WithCollaborators.
Variable md5_hexdigest : string -> string.

(** A query that is empty or made of blanks only is refused before
    anything else is looked at: the failure result carries the message,
    no entity and confidence 0, and the caches are left as they were. *)
Theorem blank_query_is_refused
        (search_documentation : string -> string + list table_result)
        (random_uniform : nat -> Q) (format_2f : Q -> string)
        (self : t) (user_query : string) (user_intent : option string)
        (max_entities : Z) :
  strip user_query = "" ->
  recognize_entities_optimized md5_hexdigest search_documentation
                               random_uniform format_2f self user_query
                               user_intent max_entities
  = (mk_result false (Some "Query cannot be empty") [] [] "" 0, self).
Proof.
  intros H. unfold recognize_entities_optimized. rewrite H.
  cbn [String.eqb]. now rewrite orb_true_r.
Qed.

Lemma recognize_cached
      (search_documentation : string -> string + list table_result)
      (random_uniform : nat -> Q) (format_2f : Q -> string)
      (st : t) (user_query : string) (user_intent : option string)
      (max_entities : Z) (r : result) :
  (String.eqb user_query "" || String.eqb (strip user_query) "") = false ->
  let intent :=
    match user_intent with
    | Some i => if String.eqb i "" then user_query else i
    | None => user_query
    end in
  let key := _get_cache_key md5_hexdigest user_query intent in
  Py.lookup key (_result_cache st) = None ->
  recognize_entities_optimized md5_hexdigest search_documentation
                               random_uniform format_2f
                               (_cache_result st key r) user_query
                               user_intent max_entities
  = (r, _cache_result st key r).
Proof.
  intros Hq intent key Hmiss. unfold recognize_entities_optimized.
  rewrite Hq. fold intent. fold key.
  unfold _get_cached_result, _cache_result. cbn [_result_cache].
  rewrite lookup_cache_result_fresh; [reflexivity | lia | exact Hmiss].
Qed.

(** X18: once a query went through the search, its result is cached under
    the query and the intent alone: a second call with the same query and
    intent returns the same result and changes nothing, whatever
    [max_entities] it asks for and whatever the search and the random
    draws would give this time. *)
Theorem second_recognition_returns_cached
        (search search' : string -> string + list table_result)
        (random random' : nat -> Q) (format format' : Q -> string)
        (self : t) (user_query : string) (user_intent : option string)
        (max_entities max_entities' : Z) (tables : list table_result) :
  let intent :=
    match user_intent with
    | Some i => if String.eqb i "" then user_query else i
    | None => user_query
    end in
  (String.eqb user_query "" || String.eqb (strip user_query) "") = false ->
  _get_cached_result self (_get_cache_key md5_hexdigest user_query intent)
  = None ->
  search (strip user_query) = inr tables ->
  let first := recognize_entities_optimized
                 md5_hexdigest search random format self user_query
                 user_intent max_entities in
  recognize_entities_optimized md5_hexdigest search' random' format'
                               (snd first) user_query user_intent
                               max_entities'
  = first.
Proof.
  intros intent Hq Hmiss Hsearch first.
  assert (E : exists st r,
             Py.lookup (_get_cache_key md5_hexdigest user_query intent)
                       (_result_cache st) = None
             /\ first = (r, _cache_result
                               st
                               (_get_cache_key md5_hexdigest user_query
                                               intent) r)).
  { subst first. unfold recognize_entities_optimized.
    rewrite Hq. fold intent. rewrite Hmiss, Hsearch.
    destruct (Qgt_bool _ _).
    - eexists self, _. split; [exact Hmiss | reflexivity].
    - destruct tables as [|tr l].
      + eexists self, _. split; [exact Hmiss | reflexivity].
      + destruct (rank_entities format (_embedding_cache self) intent
                                (tr :: l) max_entities) as [r cache'].
        exists (mk cache' (_result_cache self)), r.
        split; [exact Hmiss | reflexivity]. }
  destruct E as (st & r & Hst & ->). cbn [snd].
  exact (@recognize_cached search' random' format' st user_query
                           user_intent max_entities' r Hq Hst).
Qed.

Local Abbreviation confidences_ok cache :=
  (Forall (fun kv : string * result =>
             0 <= confidence (snd kv) /\ confidence (snd kv) <= 1) cache).


End WithCollaborators.

Lemma blank_query_is_refused_witness :
  fst (recognize_entities_optimized
         (fun s => s) (fun _ => inr []) (fun _ => 0) (fun _ => "")
         init "   " (Some "customers") 5)
  = mk_result false (Some "Query cannot be empty") [] [] "" 0.
Proof.
  rewrite (@blank_query_is_refused
             (fun s => s) (fun _ => inr []) (fun _ => 0) (fun _ => "")
             init "   " (Some "customers") 5 eq_refl).
  reflexivity.
Defined.

Lemma second_recognition_returns_cached_witness :
  let table :=
    mk_table_result (Some (mk_content (Some "orders") (Some ""))) (Some 0.9) in
  let first :=
    recognize_entities_optimized
      (fun s => s) (fun _ => inr [table; table]) (fun _ => 0) (fun _ => "")
      init "orders" None 5 in
  recognize_entities_optimized
    (fun s => s) (fun _ => inl "offline") (fun _ => 1) (fun _ => "")
    (snd first) "orders" None 1
  = first.
Proof.
  intros table first.
  apply (@second_recognition_returns_cached
           (fun s => s) (fun _ => inr [table; table]) (fun _ => inl "offline")
           (fun _ => 0) (fun _ => 1) (fun _ => "") (fun _ => "")
           init "orders" None 5 1 [table; table]); reflexivity.
Defined.
End EntityRecognitionMore.

(** ** Scores and labels of the ranking *)

Module EntityScoreFacts.
Import PyStr PyStrFacts PySeq PyFloat PySeqFacts PyFloatFacts
       EntityRecognitionAgent EntityRecognitionFacts EntityRecognitionMore.
Local Open Scope string_scope.
Local Open Scope Q_scope.

Lemma NoDup_dedup (l : list string) : NoDup (dedup l).
Proof.
  induction l as [|x l IH]; cbn; [constructor|].
  destruct (mem x l) eqn:E; [exact IH|].
  constructor; [|exact IH]. rewrite In_dedup. now apply mem_false.
Qed.

Lemma ratio_in_unit_interval (a b : nat) :
  (a <= b)%nat -> (0 < b)%nat ->
  0 <= inject_Z (Z.of_nat a) / inject_Z (Z.of_nat b)
  /\ inject_Z (Z.of_nat a) / inject_Z (Z.of_nat b) <= 1.
Proof.
  intros Hab Hb.
  assert (B : 0 < inject_Z (Z.of_nat b)).
  { change 0 with (inject_Z 0). rewrite <- Zlt_Qlt. lia. }
  split.
  - apply Qle_shift_div_l; [exact B|]. rewrite Qmult_0_l.
    change 0 with (inject_Z 0). rewrite <- Zle_Qle. lia.
  - apply Qle_shift_div_r; [exact B|]. rewrite Qmult_1_l.
    rewrite <- Zle_Qle. lia.
Qed.

Lemma purpose_match_range (business_purpose user_intent : string) :
  0 <= _calculate_purpose_match business_purpose user_intent
  /\ _calculate_purpose_match business_purpose user_intent <= 1.
Proof.
  assert (Z0 : 0 <= 0 /\ 0 <= 1) by (split; discriminate).
  unfold _calculate_purpose_match.
  destruct (_ || _); [exact Z0|]. cbv zeta.
  destruct (dedup (split_ws (lower business_purpose))) as [|p ps] eqn:Ep;
    [exact Z0|].
  destruct (dedup (split_ws (lower user_intent))) as [|w ws] eqn:Ei;
    [exact Z0|].
  rewrite <- Ep, <- Ei.
  assert (Hlen : (0 < List.length (dedup (split_ws (lower user_intent))))%nat)
    by (rewrite Ei; cbn; lia).
  rewrite Nat.max_l by lia.
  apply ratio_in_unit_interval; [|exact Hlen].
  apply NoDup_incl_length.
  - apply NoDup_filter, NoDup_dedup.
  - intros x Hx. apply filter_In in Hx. now apply mem_In.
Qed.

(** X20: the business purpose match is a proportion: it lies between 0
    and 1 for every purpose and every intent. *)
Theorem purpose_match_in_unit_interval (business_purpose user_intent : string) :
  0 <= _calculate_purpose_match business_purpose user_intent
  /\ _calculate_purpose_match business_purpose user_intent <= 1.
Proof. exact (purpose_match_range business_purpose user_intent). Qed.


Local Abbreviation unit_values cache :=
  (Forall (fun kv : string * Q => 0 <= snd kv /\ snd kv <= 1) cache).

Local Abbreviation unit_score :=
  (fun tr : table_result =>
     match result_score tr with
     | Some s => 0 <= s /\ s <= 1
     | None => True
     end).

Local Abbreviation unit_entity :=
  (fun e : entity => 0 <= relevance_score e /\ relevance_score e <= 1).

Local Abbreviation kept_entity :=
  (fun e : entity => 0.3 <= relevance_score e /\ relevance_score e <= 1).








Local Abbreviation kept_results cache :=
  (Forall (fun kv : string * result =>
             Forall kept_entity (applicable_entities (snd kv))) cache).

Local Abbreviation unit_search search_documentation :=
  (forall (q : string) (tables : list table_result),
      search_documentation q = inr tables -> Forall unit_score tables).




(** *** Labels *)




Local Abbreviation labelled :=
  (fun e : entity =>
     exists x, relevance_score e = round3 x
               /\ recommendation e = _get_relevance_recommendation x).



(** *** Recommendations *)

Lemma nth_error_enumerate_from (A : Type) (l : list A) (k i : nat) :
  nth_error (enumerate_from k l) i
  = option_map (fun x => ((k + i)%nat, x)) (nth_error l i).
Proof.
  revert k i. induction l as [|x l IH]; intros k [|i]; cbn;
    try reflexivity.
  - now rewrite Nat.add_0_r.
  - rewrite IH. now rewrite Nat.add_succ_r.
Qed.

Lemma nth_error_make_recommendations (l : list entity) (i : nat) (e : entity) :
  nth_error l i = Some e ->
  nth_error (make_recommendations l) i
  = Some (mk_recommendation (i + 1) (table_name e) (relevance_score e)
                            (business_purpose e) (recommendation e)).
Proof.
  intros H. unfold make_recommendations.
  rewrite nth_error_map, nth_error_enumerate_from, H. reflexivity.
Qed.

Lemma length_make_recommendations (l : list entity) :
  List.length (make_recommendations l) = List.length l.
Proof.
  unfold make_recommendations. rewrite length_map.
  generalize 0%nat. induction l as [|x l IH]; intros k; cbn;
    [reflexivity | now rewrite IH].
Qed.

(** X23: [_get_entity_recommendations] with a bound [max >= 0] lists the
    first [max] entities in their order: there are [min(n, max)]
    recommendations, and the one at position [i] has priority [i + 1] and
    the name, score, purpose and label of the entity at position [i]. *)
Theorem recommendations_follow_entities
        (applicable_entities : list entity) (max_recommendations : Z) :
  (0 <= max_recommendations)%Z ->
  let r := EntityRecommendations._get_entity_recommendations
             applicable_entities max_recommendations in
  List.length (EntityRecommendations.rr_recommendations r)
  = Nat.min (Z.to_nat max_recommendations) (List.length applicable_entities)
  /\ forall (i : nat) (e : entity),
       (Z.of_nat i < max_recommendations)%Z ->
       nth_error applicable_entities i = Some e ->
       nth_error (EntityRecommendations.rr_recommendations r) i
       = Some (mk_recommendation (i + 1) (table_name e) (relevance_score e)
                                 (business_purpose e) (recommendation e)).
Proof.
  intros Hmax r. subst r.
  unfold EntityRecommendations._get_entity_recommendations.
  destruct applicable_entities as [|e0 l] eqn:El.
  - cbn. split; [now rewrite Nat.min_0_r|]. intros [|i] e _ H; discriminate H.
  - rewrite <- El. clear El e0 l.
    cbn [EntityRecommendations.rr_recommendations].
    unfold slice_to. apply Z.leb_le in Hmax as Hb. rewrite Hb. split.
    + now rewrite length_make_recommendations, length_firstn.
    + intros i e Hi He. apply nth_error_make_recommendations.
      rewrite nth_error_firstn.
      assert (L : (i <? Z.to_nat max_recommendations)%nat = true)
        by (apply Nat.ltb_lt; lia).
      now rewrite L.
Qed.

Lemma recommendations_follow_entities_witness :
  let e := mk_entity "orders" "customer orders" 0.9 None "Relevant" in
  List.length (EntityRecommendations.rr_recommendations
                 (EntityRecommendations._get_entity_recommendations
                    [e; e; e] 2))
  = 2%nat.
Proof.
  intros e.
  exact (proj1 (@recommendations_follow_entities [e; e; e] 2%Z
                  ltac:(discriminate))).
Defined.
End EntityScoreFacts.

(** ** More on the business context *)

Module BusinessContextMore.
Import PyStr PyStrFacts PySeq PySeqFacts Concepts BusinessContextAgent
       BusinessContextFacts.
Local Open Scope string_scope.

(** *** Required entities are lower-case *)

Local Abbreviation no_upper s :=
  (Forall (fun c => is_upper_ascii c = false) (list_ascii_of_string s)).

Lemma to_lower_no_upper (c : ascii) : is_upper_ascii (to_lower c) = false.
Proof.
  destruct c as [[] [] [] [] [] [] [] []]; reflexivity.
Qed.

Lemma lower_no_upper (s : string) : no_upper (lower s).
Proof.
  induction s as [|c s IH]; [constructor|].
  cbn. constructor; [apply to_lower_no_upper | exact IH].
Qed.

Lemma no_upper_lower (s : string) : no_upper s -> lower s = s.
Proof.
  induction s as [|c s IH]; intros H; [reflexivity|].
  cbn in H. inversion H as [|? ? Hc Hs]; subst.
  change (lower (String c s)) with (String (to_lower c) (lower s)).
  rewrite (IH Hs). unfold to_lower. now rewrite Hc.
Qed.

Lemma no_upper_app (a b : string) :
  no_upper a -> no_upper b -> no_upper (a ++ b).
Proof.
  intros Ha Hb. induction a as [|c a IH]; [exact Hb|].
  cbn in *. inversion Ha; subst. constructor; auto.
Qed.

Lemma split_from_no_upper (sep s cur : string) (skip : nat) :
  no_upper s -> no_upper cur ->
  Forall (fun piece => no_upper piece) (split_from sep s cur skip).
Proof.
  revert cur skip. induction s as [|c s IH]; intros cur skip Hs Hc.
  - cbn. constructor; [exact Hc | constructor].
  - cbn in Hs. inversion Hs as [|? ? H1 H2]; subst.
    cbn [split_from]. destruct skip as [|k]; [|now apply IH].
    destruct (String.prefix sep (String c s)).
    + constructor; [exact Hc|]. apply IH; [exact H2 | constructor].
    + apply IH; [exact H2|]. apply no_upper_app; [exact Hc|].
      cbn. constructor; [exact H1 | constructor].
Qed.

Lemma lstrip_no_upper (s : string) : no_upper s -> no_upper (lstrip s).
Proof.
  induction s as [|c s IH]; intros H; [exact H|].
  cbn [lstrip]. destruct (is_space c); [|exact H].
  cbn in H. inversion H; subst. now apply IH.
Qed.

Lemma rstrip_no_upper (s : string) : no_upper s -> no_upper (rstrip s).
Proof.
  induction s as [|c s IH]; intros H; [exact H|].
  cbn in H. inversion H; subst. cbn [rstrip].
  destruct (is_space c && String.eqb (rstrip s) ""); [constructor|].
  cbn. constructor; auto.
Qed.

Lemma required_entities_lower (joins : list string) (e : string) :
  In e (required_entities_of joins) -> lower e = e.
Proof.
  unfold required_entities_of. rewrite In_add_joins.
  intros [[]|(join & part & _ & _ & Hp & _ & ->)].
  apply no_upper_lower. unfold strip.
  apply rstrip_no_upper, lstrip_no_upper.
  pose proof (@split_from_no_upper "=" (lower join) "" 0
                (lower_no_upper join) (Forall_nil _)) as Hs.
  rewrite Forall_forall in Hs. specialize (Hs part Hp).
  pose proof (@split_from_no_upper "." part "" 0 Hs (Forall_nil _)) as Hd.
  fold (split "." part) in Hd.
  destruct (split "." part) as [|x l]; [constructor|].
  now inversion Hd.
Qed.

(** X24: the join conditions are lower-cased before the entity names are
    read from them, the applicable entities are not.  So when every
    applicable entity has an upper-case letter and the joins name at least
    one entity, the validation fails and no join is satisfied, even when
    the joins name exactly the applicable entities. *)
Theorem capitalised_entities_never_satisfy_joins
        (entities required_joins : list string) :
  (forall e, In e entities -> lower e <> e) ->
  required_entities_of required_joins <> [] ->
  let r := _validate_required_joins entities required_joins in
  valid r = false
  /\ satisfied_joins r = []
  /\ unsatisfied_joins r = required_joins.
Proof.
  intros Hcap Hne r. subst r. unfold _validate_required_joins.
  rewrite classify_joins.
  assert (Hall : forall l, (forall e, In e l -> lower e = e) ->
                 filter (fun e => negb (mem e (dedup entities))) l = l).
  { induction l as [|e l IH]; intros Hl; [reflexivity|].
    cbn [filter].
    assert (Hm : mem e (dedup entities) = false).
    { apply mem_false. rewrite In_dedup. intros Hin.
      apply (Hcap e Hin). apply Hl. now left. }
    rewrite Hm. cbn [negb]. f_equal. apply IH.
    intros x Hx. apply Hl. now right. }
  rewrite (Hall (required_entities_of required_joins)
                (required_entities_lower required_joins)).
  destruct (required_entities_of required_joins) as [|e l] eqn:E;
    [congruence|].
  assert (Hm : mem e (dedup entities) = false).
  { apply mem_false. rewrite In_dedup. intros Hin.
    apply (Hcap e Hin). apply (required_entities_lower required_joins).
    rewrite E. now left. }
  cbn [forallb]. rewrite Hm. cbn [andb].
  repeat split; reflexivity.
Qed.

Lemma capitalised_entities_never_satisfy_joins_witness :
  valid (_validate_required_joins
           ["Customers"; "Orders"]
           ["Customers.id = Orders.customer_id"])
  = false.
Proof.
  apply (@capitalised_entities_never_satisfy_joins
           ["Customers"; "Orders"] ["Customers.id = Orders.customer_id"]).
  - intros e [<-|[<-|[]]]; discriminate.
  - discriminate.
Defined.

(** *** What [gather_business_context] reports *)

Local Open Scope Q_scope.

Lemma StronglySorted_map (A B : Type) (R : B -> B -> Prop) (f : A -> B)
      (l : list A) :
  StronglySorted (fun a b => R (f a) (f b)) l -> StronglySorted R (map f l).
Proof.
  induction 1 as [|x l Hl IH Hx]; cbn; constructor; [exact IH|].
  apply Forall_map. exact Hx.
Qed.

Lemma In_get_concepts_for_entities (concepts_cache : list BusinessConcept)
      (entity_names : list string) (c : BusinessConcept) :
  In c (get_concepts_for_entities concepts_cache entity_names)
  <-> In c concepts_cache
      /\ exists e, In e entity_names /\ In e (target c).
Proof.
  unfold get_concepts_for_entities. rewrite filter_In.
  apply and_iff_compat_l. split.
  - destruct (filter _ (target c)) as [|e l] eqn:E; [discriminate|].
    intros _. assert (H : In e (filter (fun entity => mem entity
                                          (dedup entity_names)) (target c)))
      by (rewrite E; now left).
    apply filter_In in H. destruct H as [Ht Hm].
    rewrite mem_dedup in Hm. apply mem_In in Hm. now exists e.
  - intros (e & He & Ht).
    assert (H : In e (filter (fun entity => mem entity (dedup entity_names))
                             (target c))).
    { apply filter_In. split; [exact Ht|]. rewrite mem_dedup.
      now apply mem_In. }
    destruct (filter _ (target c)); [destruct H | reflexivity].
Qed.

Section WithEmbeddings.
Variable similarity : string -> string -> Q.

Lemma In_match_concepts_to_query (user_query : string)
      (concepts : list BusinessConcept) (threshold : Q)
      (c : BusinessConcept) (s : Q) :
  In (c, s) (match_concepts_to_query similarity user_query concepts threshold)
  <-> In c concepts /\ s = similarity user_query (description c)
      /\ threshold <= s.
Proof.
  unfold match_concepts_to_query. rewrite In_sort_desc, filter_In, in_map_iff.
  cbn [snd]. rewrite Qle_bool_iff. split.
  - intros [(c' & E & Hc) Ht]. injection E as -> <-. now repeat split.
  - intros (Hc & -> & Ht). split; [|exact Ht]. now exists c.
Qed.

Lemma match_concepts_to_query_sorted (user_query : string)
      (concepts : list BusinessConcept) (threshold : Q) :
  StronglySorted (fun a b : BusinessConcept * Q => snd b <= snd a)
    (match_concepts_to_query similarity user_query concepts threshold).
Proof.
  unfold match_concepts_to_query.
  apply (sort_desc_sorted (fun m : BusinessConcept * Q => snd m)).
Qed.

Local Abbreviation gather_business_context cache :=
  (gather_business_context cache similarity).

Local Abbreviation matched_of cache user_query entities :=
  (match_concepts_to_query
     similarity user_query
     (get_concepts_for_entities cache entities) 0.5).

(** The context, when it is not the empty one, in terms of the matches. *)
Lemma gather_business_context_matched (cache : list BusinessConcept)
      (user_query : string) (entities : list string) :
  let r := gather_business_context cache user_query entities in
  let matched := matched_of cache user_query entities in
  r = _empty_business_context
  \/ (matched_concepts r
      = map (fun cs => mk_matched (name (fst cs)) (description (fst cs))
                                  (target (fst cs))
                                  (required_joins (fst cs)) (snd cs))
            matched
      /\ relevant_examples r
         = flat_map
             (fun cs =>
                map (fun es => mk_relevant_example (fst es) (snd es)
                                                   (name (fst cs)))
                    (find_similar_examples similarity (fst cs) user_query 3))
             matched
      /\ join_validations r
         = fold_left
             (fun d cs =>
                Py.set (name (fst cs))
                       (_validate_required_joins entities
                                                 (required_joins (fst cs)))
                       d)
             matched []).
Proof.
  intros r matched. subst r matched.
  unfold BusinessContextAgent.gather_business_context.
  destruct entities as [|e l]; [now left|].
  destruct (get_concepts_for_entities cache (e :: l)); [now left|].
  right. repeat split.
Qed.

(** X25: every matched concept of a business context is a loaded concept
    that targets one of the applicable entities, with its own description,
    targets and joins; its similarity is the one of its description to the
    query and is at least 0.5; and the matched concepts come in decreasing
    order of similarity. *)
Theorem matched_concepts_are_relevant_and_ranked
        (cache : list BusinessConcept) (user_query : string)
        (entities : list string) :
  let r := gather_business_context cache user_query entities in
  Forall (fun m =>
            0.5 <= m_similarity m
            /\ exists c e,
                 In c cache /\ In e entities /\ In e (target c)
                 /\ m = mk_matched (name c) (description c) (target c)
                                   (required_joins c)
                                   (similarity user_query (description c)))
         (matched_concepts r)
  /\ StronglySorted (fun a b => m_similarity b <= m_similarity a)
                    (matched_concepts r).
Proof.
  intros r.
  destruct (gather_business_context_matched cache user_query entities)
    as [E|(E & _ & _)]; fold r in E.
  - rewrite E. cbn. split; constructor.
  - rewrite E. split.
    + apply Forall_map. apply Forall_forall. intros [c s] H.
      apply In_match_concepts_to_query in H. destruct H as (Hc & -> & Ht).
      apply In_get_concepts_for_entities in Hc.
      destruct Hc as (Hc & e & He & Htg). cbn [fst snd m_similarity].
      split; [exact Ht|]. exists c, e. now repeat split.
    + apply StronglySorted_map. cbn [m_similarity].
      apply match_concepts_to_query_sorted.
Qed.




Lemma find_in_app (A : Type) (f : A -> bool) (l1 l2 : list A) :
  find f (l1 ++ l2)
  = match find f l1 with Some x => Some x | None => find f l2 end.
Proof.
  induction l1 as [|x l1 IH]; [reflexivity|].
  cbn. now destruct (f x).
Qed.

Lemma join_validation_fold (entities : list string)
      (matched : list (BusinessConcept * Q))
      (d : list (string * join_validation)) (k : string) :
  Py.lookup k
    (fold_left
       (fun d cs =>
          Py.set (name (fst cs))
                 (_validate_required_joins entities (required_joins (fst cs)))
                 d)
       matched d)
  = match find (fun cs => String.eqb k (name (fst cs))) (rev matched) with
    | Some cs => Some (_validate_required_joins entities
                                                (required_joins (fst cs)))
    | None => Py.lookup k d
    end.
Proof.
  revert d. induction matched as [|cs l IH]; intros d; [reflexivity|].
  cbn [fold_left rev]. rewrite IH, find_in_app.
  destruct (find _ (rev l)); [reflexivity|]. cbn [find].
  destruct (String.eqb k (name (fst cs))) eqn:E.
  - apply String.eqb_eq in E. subst k.
    apply BoundedCacheMore.lookup_set_same.
  - apply BoundedCacheMore.lookup_set_other.
    intros ->. now rewrite String.eqb_refl in E.
Qed.

(** X27: the join validation of a business context has an entry under
    the name of every matched concept, and each entry is the validation of
    the required joins of some matched concept of that name against the
    applicable entities. *)
Theorem join_validation_covers_matched_concepts
        (cache : list BusinessConcept) (user_query : string)
        (entities : list string) :
  let r := gather_business_context cache user_query entities in
  (forall m, In m (matched_concepts r) ->
             exists v, Py.lookup (m_name m) (join_validations r) = Some v)
  /\ (forall k v,
         Py.lookup k (join_validations r) = Some v ->
         exists m, In m (matched_concepts r) /\ m_name m = k
                   /\ v = _validate_required_joins entities
                                                   (m_required_joins m)).
Proof.
  intros r.
  destruct (gather_business_context_matched cache user_query entities)
    as [E|(Em & _ & Ej)]; fold r in E || fold r in Em, Ej.
  - rewrite E. cbn. split; [intros m [] | discriminate].
  - rewrite Em, Ej. split.
    + intros m Hm. apply in_map_iff in Hm. destruct Hm as (cs & <- & Hcs).
      cbn [m_name]. rewrite join_validation_fold.
      destruct (find _ (rev _)) as [cs'|] eqn:F; [eauto|].
      apply in_rev in Hcs. pose proof (find_none _ _ F cs Hcs) as C.
      cbn beta in C. now rewrite String.eqb_refl in C.
    + intros k v. rewrite join_validation_fold.
      destruct (find _ (rev _)) as [cs|] eqn:F; [|discriminate].
      intros Hv. injection Hv as <-. apply find_some in F.
      destruct F as [Hin Hk]. apply String.eqb_eq in Hk.
      apply in_rev in Hin.
      exists (mk_matched (name (fst cs)) (description (fst cs))
                         (target (fst cs)) (required_joins (fst cs))
                         (snd cs)).
      split; [|split; [now symmetry | reflexivity]].
      apply in_map_iff. now exists cs.
Qed.
End WithEmbeddings.
End BusinessContextMore.

(** ** The concept loader and the keyword similarity *)

Module ConceptLoaderFacts.
Import PyStr PyStrFacts PySeq PySeqFacts Concepts ConceptLoader
       ConceptMatcher BusinessContextAgent EntityScoreFacts.
Local Open Scope string_scope.

Section FoldSet.
Variables (A V : Type) (key : A -> string) (val : A -> V).

Local Abbreviation store :=
  (fun (d : list (string * V)) (a : A) => Py.set (key a) (val a) d).

Lemma find_app_first (f : A -> bool) (l1 l2 : list A) :
  find f (l1 ++ l2)
  = match find f l1 with Some x => Some x | None => find f l2 end.
Proof.
  induction l1 as [|x l1 IH]; [reflexivity|].
  cbn. now destruct (f x).
Qed.

(** After a run of assignments, a key holds what the last assignment to
    it stored. *)
Lemma lookup_fold_set (l : list A) (d : list (string * V)) (k : string) :
  Py.lookup k (fold_left store l d)
  = match find (fun a => String.eqb k (key a)) (rev l) with
    | Some a => Some (val a)
    | None => Py.lookup k d
    end.
Proof.
  revert d. induction l as [|a l IH]; intros d; [reflexivity|].
  cbn [fold_left rev]. rewrite IH, find_app_first.
  destruct (find _ (rev l)); [reflexivity|]. cbn [find].
  destruct (String.eqb k (key a)) eqn:E.
  - apply String.eqb_eq in E. subst k.
    apply BoundedCacheMore.lookup_set_same.
  - apply BoundedCacheMore.lookup_set_other.
    intros ->. now rewrite String.eqb_refl in E.
Qed.

Lemma keys_set (d : list (string * V)) (k : string) (v : V) :
  Py.keys (Py.set k v d)
  = if mem k (Py.keys d) then Py.keys d else (Py.keys d ++ [k])%list.
Proof.
  unfold Py.keys, mem. induction d as [|[k0 v0] d IH]; [reflexivity|].
  cbn [Py.set map existsb fst]. destruct (String.eqb k k0) eqn:E.
  - reflexivity.
  - cbn [map fst orb]. rewrite IH. now destruct (existsb _ _).
Qed.

Lemma NoDup_snoc (B : Type) (l : list B) (x : B) :
  NoDup l -> ~ In x l -> NoDup (l ++ [x]).
Proof.
  induction 1 as [|y l Hy Hl IH]; intros Hx; cbn.
  - constructor; [intros [] | constructor].
  - constructor.
    + rewrite in_app_iff. intros [H|[->|[]]]; [now apply Hy|].
      apply Hx. now left.
    + apply IH. intros H. apply Hx. now right.
Qed.

Lemma fold_set_keyed (P : string * V -> Prop) (l : list A)
      (d : list (string * V)) :
  (forall a, In a l -> P (key a, val a)) ->
  NoDup (Py.keys d) -> Forall P d ->
  NoDup (Py.keys (fold_left store l d)) /\ Forall P (fold_left store l d).
Proof.
  revert d. induction l as [|a l IH]; intros d Hl Hn Hd;
    [split; assumption|].
  cbn [fold_left]. apply IH.
  - intros x Hx. apply Hl. now right.
  - rewrite keys_set. destruct (mem (key a) (Py.keys d)) eqn:E;
      [exact Hn|].
    apply NoDup_snoc; [exact Hn | now apply mem_false].
  - assert (Ha : P (key a, val a)) by (apply Hl; now left).
    clear - Hd Ha. induction Hd as [|[k0 v0] d H0 Hd IH]; cbn.
    + constructor; [exact Ha | constructor].
    + destruct (String.eqb (key a) k0) eqn:E.
      * apply String.eqb_eq in E. subst k0. constructor; assumption.
      * constructor; assumption.
Qed.
End FoldSet.

Lemma fold_left_concat (A B : Type) (f : B -> A -> B) (ls : list (list A))
      (b : B) :
  fold_left (fun acc l => fold_left f l acc) ls b = fold_left f (List.concat ls) b.
Proof.
  revert b. induction ls as [|l ls IH]; intros b; [reflexivity|].
  cbn [fold_left List.concat]. now rewrite IH, fold_left_app.
Qed.

Lemma load_all_concepts_flat (files : list (list BusinessConcept)) :
  _load_all_concepts files
  = fold_left (fun cache concept => Py.set (name concept) concept cache)
              (List.concat files) [].
Proof. apply fold_left_concat. Qed.

(** X28: concepts are stored under their names, so a concept loaded later
    replaces an earlier one of the same name: [get_concept_by_name]
    returns the last concept of that name in the order of loading, and
    [None] when no file defines the name. *)
Theorem later_concept_replaces_earlier
        (files : list (list BusinessConcept)) (concept_name : string) :
  get_concept_by_name (_load_all_concepts files) concept_name
  = find (fun c => String.eqb concept_name (name c)) (rev (List.concat files)).
Proof.
  unfold get_concept_by_name. rewrite load_all_concepts_flat.
  rewrite (lookup_fold_set name (fun c => c)).
  now destruct (find _ _).
Qed.

Lemma loaded_names_unique (files : list (list BusinessConcept)) :
  NoDup (map name (get_all_concepts (_load_all_concepts files))).
Proof.
  rewrite load_all_concepts_flat.
  destruct (@fold_set_keyed
              BusinessConcept BusinessConcept name (fun c => c)
              (fun kv => fst kv = name (snd kv)) (List.concat files) [])
    as [Hn Hk]; [reflexivity | constructor | constructor |].
  unfold get_all_concepts. rewrite map_map.
  unfold Py.keys in Hn.
  erewrite map_ext_in; [exact Hn|].
  intros kv Hin. rewrite Forall_forall in Hk. symmetry. now apply Hk.
Qed.

Lemma NoDup_map_filter (A B : Type) (f : A -> B) (p : A -> bool)
      (l : list A) :
  NoDup (map f l) -> NoDup (map f (filter p l)).
Proof.
  induction l as [|x l IH]; cbn; intros H; [constructor|].
  inversion H as [|? ? Hx Hl]; subst. destruct (p x); cbn; [|now apply IH].
  constructor; [|now apply IH]. intros Hin. apply Hx.
  apply in_map_iff in Hin. destruct Hin as (y & E & Hy).
  apply filter_In in Hy. apply in_map_iff. exists y. tauto.
Qed.

Lemma NoDup_map_insert_desc (A B : Type) (key : A -> Q) (f : A -> B)
      (x : A) (l : list A) :
  NoDup (map f (x :: l)) -> NoDup (map f (insert_desc key x l)).
Proof.
  induction l as [|y l IH]; intros H; [exact H|].
  cbn [insert_desc]. destruct (Qle_bool (key y) (key x)); [exact H|].
  cbn [map] in *. inversion H as [|? ? Hx Hl]; subst.
  inversion Hl as [|? ? Hy Hl']; subst. constructor.
  - intros Hin. apply in_map_iff in Hin. destruct Hin as (z & E & Hz).
    apply In_insert_desc in Hz. destruct Hz as [->|Hz].
    + apply Hx. rewrite E. now left.
    + apply Hy. apply in_map_iff. now exists z.
  - apply IH. constructor; [|exact Hl'].
    intros Hin. apply Hx. now right.
Qed.

Lemma NoDup_map_sort_desc (A B : Type) (key : A -> Q) (f : A -> B)
      (l : list A) :
  NoDup (map f l) -> NoDup (map f (sort_desc key l)).
Proof.
  induction l as [|x l IH]; intros H; [exact H|].
  cbn [map] in H. inversion H as [|? ? Hx Hl]; subst.
  change (sort_desc key (x :: l)) with (insert_desc key x (sort_desc key l)).
  apply NoDup_map_insert_desc. cbn [map]. constructor; [|exact (IH Hl)].
  intros Hin. apply Hx. apply in_map_iff in Hin.
  destruct Hin as (z & E & Hz).
  pose proof (proj1 (In_sort_desc key z l) Hz) as Hz'.
  apply in_map_iff. now exists z.
Qed.

Lemma dedup_NoDup (l : list string) : NoDup l -> dedup l = l.
Proof.
  induction 1 as [|x l Hx Hl IH]; [reflexivity|].
  cbn [dedup]. apply mem_false in Hx. now rewrite Hx, IH.
Qed.

(** X29: with the concepts of a loader, no two of which share a name,
    [entities_with_concepts] is the number of matched concepts: it counts
    concepts, whatever the number of applicable entities they target. *)
Theorem coverage_counts_matched_concepts
        (files : list (list BusinessConcept))
        (similarity : string -> string -> Q) (user_query : string)
        (applicable_entities : list string) :
  let r := gather_business_context
             (get_all_concepts (_load_all_concepts files))
             similarity user_query applicable_entities in
  entities_with_concepts (coverage r) = List.length (matched_concepts r).
Proof.
  intros r. subst r. unfold gather_business_context.
  destruct applicable_entities as [|e l]; [reflexivity|].
  destruct (get_concepts_for_entities _ (e :: l)) as [|c cs] eqn:E;
    [reflexivity|].
  rewrite <- E. cbn [coverage entities_with_concepts matched_concepts].
  rewrite length_map. rewrite dedup_NoDup; [now rewrite length_map|].
  unfold match_concepts_to_query.
  rewrite <- (map_map fst name).
  assert (H : NoDup (map name
                         (get_concepts_for_entities
                            (get_all_concepts (_load_all_concepts files))
                            (e :: l)))).
  { unfold get_concepts_for_entities. apply NoDup_map_filter.
    apply loaded_names_unique. }
  rewrite (map_map fst name).
  apply (NoDup_map_sort_desc (fun m : BusinessConcept * Q => snd m)
                             (fun m => name (fst m))).
  apply (NoDup_map_filter (fun m : BusinessConcept * Q => name (fst m))).
  now rewrite map_map.
Qed.

(** *** The keyword similarity *)

Local Open Scope Q_scope.

Lemma NoDup_union (l1 l2 : list string) :
  NoDup l1 -> NoDup l2 ->
  NoDup (l1 ++ filter (fun w => negb (mem w l1)) l2).
Proof.
  intros H1 H2. apply NoDup_app; [exact H1 | now apply NoDup_filter|].
  intros a Ha Hf. apply filter_In in Hf. destruct Hf as [_ Hm].
  apply mem_In in Ha. now rewrite Ha in Hm.
Qed.

Lemma same_elements_length (l1 l2 : list string) :
  NoDup l1 -> NoDup l2 -> (forall x, In x l1 <-> In x l2) ->
  List.length l1 = List.length l2.
Proof.
  intros H1 H2 H. apply Nat.le_antisymm; apply NoDup_incl_length;
    try assumption; intros x Hx; now apply H.
Qed.

Lemma simple_similarity_eq (query description : string) :
  let query_words := dedup (split_ws (lower query)) in
  let desc_words := dedup (split_ws (lower description)) in
  _simple_similarity query description
  = match query_words, desc_words with
    | [], _ => 0
    | _, [] => 0
    | _, _ =>
        inject_Z (Z.of_nat (List.length
                              (filter (fun w => mem w desc_words)
                                      query_words)))
        / inject_Z (Z.of_nat (List.length
                                (query_words
                                   ++ filter
                                        (fun w => negb (mem w query_words))
                                        desc_words)))
    end.
Proof.
  intros qw dw. unfold _simple_similarity. fold qw dw. cbv zeta.
  destruct qw as [|q qs]; [reflexivity|].
  destruct dw as [|d ds]; reflexivity.
Qed.

(** X30: the keyword similarity is a proportion between 0 and 1, and it
    does not depend on the order of its two arguments. *)
Theorem simple_similarity_symmetric_proportion (query description : string) :
  0 <= _simple_similarity query description
  /\ _simple_similarity query description <= 1
  /\ _simple_similarity query description
     = _simple_similarity description query.
Proof.
  rewrite !simple_similarity_eq. cbv zeta.
  pose proof (NoDup_dedup (split_ws (lower query))) as Nq.
  pose proof (NoDup_dedup (split_ws (lower description))) as Nd.
  set (qw := dedup (split_ws (lower query))) in *.
  set (dw := dedup (split_ws (lower description))) in *.
  assert (Z0 : 0 <= 0 /\ 0 <= 1) by (split; discriminate).
  destruct qw as [|q qs] eqn:Eq;
    [destruct dw; repeat split; try discriminate|].
  destruct dw as [|d ds] eqn:Ed; [repeat split; discriminate|].
  rewrite <- Eq, <- Ed in *.
  assert (Li : List.length (filter (fun w => mem w dw) qw)
               = List.length (filter (fun w => mem w qw) dw)).
  { apply same_elements_length; try now apply NoDup_filter.
    intros x. rewrite !filter_In, !mem_In. tauto. }
  assert (Lu : List.length (qw ++ filter (fun w => negb (mem w qw)) dw)
               = List.length (dw ++ filter (fun w => negb (mem w dw)) qw)).
  { apply same_elements_length; try now apply NoDup_union.
    intros x. rewrite !in_app_iff, !filter_In, !negb_true_iff, !mem_false.
    destruct (in_dec string_dec x qw), (in_dec string_dec x dw); tauto. }
  assert (R : 0 <= inject_Z (Z.of_nat (List.length
                                         (filter (fun w => mem w dw) qw)))
                   / inject_Z (Z.of_nat
                                 (List.length
                                    (qw ++ filter
                                             (fun w => negb (mem w qw)) dw)))
              /\ inject_Z (Z.of_nat (List.length
                                        (filter (fun w => mem w dw) qw)))
                 / inject_Z (Z.of_nat
                               (List.length
                                  (qw ++ filter
                                           (fun w => negb (mem w qw)) dw)))
                 <= 1).
  { apply ratio_in_unit_interval.
    - rewrite length_app. pose proof (filter_length_le (fun w => mem w dw) qw).
      lia.
    - rewrite length_app, Eq. cbn. lia. }
  destruct R as [R0 R1]. split; [exact R0|]. split; [exact R1|].
  now rewrite Li, Lu.
Qed.
End ConceptLoaderFacts.
